(** * London Tube Journey Planner: a shallow embedding of [app.py]

    The program is one Streamlit script: two helpers that call external
    HTTP services ([geocode], [get_tfl_journey]), a pure formatter
    ([format_duration]), two fixed tables ([MODE_COLOURS], [MODE_LABELS])
    and the handler run when the "Calculate Journey" button is pressed.

    Modelling choices.
    - A Python [str] is a Rocq [string], read as the UTF-8 encoding of the
      text.  [str.lower] is modelled by [lower], which changes the bytes of
      [A]-[Z] only: the sole use of [lower] in the program is the test
      ["london" in address.lower()], every byte of a non-ASCII character is
      at least 128, and no non-ASCII character lowercases to text holding a
      letter of "london", so the test has the value the program computes.
    - A decoded JSON document is a [json] value.  A JSON number is an
      integer ([JInt]) or, when written with a fraction or an exponent, a
      float ([JFloat]) given by its IEEE value.  A Python [dict] is the
      list of its items in insertion order.
    - Python floats (latitudes, longitudes) are kept abstract: the
      float type, the operations the program applies to it and [repr] are
      the fields of a [Builtins] record, which also says what the folium
      libraries raise when they are given the map.
    - Effects are explicit: a program is a function from the state (number
      of HTTP calls made, events emitted so far) to a new state and either
      a value or a raised exception.  The outside world is an oracle giving
      the outcome of the [n]-th HTTP call. *)

From Stdlib Require Import ZArith List String Ascii Bool Lia QArith.
From Stdlib Require Import DecimalString DecimalPos DecimalZ.
From Stdlib Require Import SpecFloat.
Import ListNotations.
Open Scope string_scope.
Open Scope Z_scope.
Set Warnings "-register-all".

(** ** Strings *)

(** The double-quote character (code 34). *)
Definition dq : string := String (ascii_of_nat 34) EmptyString.

(** [str(n)] for a Python [int]. *)
Definition str_of_int (n : Z) : string := NilZero.string_of_int (Z.to_int n).

(** ASCII lower-casing of one character. *)
Definition lower_ascii (c : ascii) : ascii :=
  let n := nat_of_ascii c in
  if (andb (Nat.leb 65 n) (Nat.leb n 90)) then ascii_of_nat (n + 32) else c.

(** [s.lower()]. *)
Fixpoint lower (s : string) : string :=
  match s with
  | EmptyString => EmptyString
  | String c s' => String (lower_ascii c) (lower s')
  end.

(** [s.startswith(p)]. *)
Fixpoint startswith (p s : string) : bool :=
  match p, s with
  | EmptyString, _ => true
  | String _ _, EmptyString => false
  | String a p', String b s' => andb (Ascii.eqb a b) (startswith p' s')
  end.

(** [p in s] for two strings: [p] occurs in [s] at some position. *)
Fixpoint str_in (p s : string) : bool :=
  orb (startswith p s)
      match s with
      | EmptyString => false
      | String _ s' => str_in p s'
      end.

(** [c in s] for a character [c]. *)
Fixpoint has_char (c : ascii) (s : string) : bool :=
  match s with
  | EmptyString => false
  | String d s' => orb (Ascii.eqb c d) (has_char c s')
  end.

(** ** Decoded JSON values and the Python operations applied to them *)

Inductive json : Type :=
| JNull
| JBool (b : bool)
| JInt (z : Z)
| JFloat (x : spec_float)
| JStr (s : string)
| JArr (items : list json)
| JObj (fields : list (string * json)).

(** Lookup of a key in a dict. *)
Fixpoint assoc {A : Type} (k : string) (kvs : list (string * A)) : option A :=
  match kvs with
  | [] => None
  | (k', v) :: rest => if String.eqb k k' then Some v else assoc k rest
  end.

Inductive exn_class : Type :=
| ValueError
| HTTPError
| KeyError
| IndexError
| TypeError
| AttributeError
| OverflowError
| RequestException.

(** A raised exception: its class and [str(e)]. *)
Record exn : Type := Raise { exn_cls : exn_class; exn_msg : string }.

(** The result of evaluating an expression: an exception or a value. *)
Definition res (A : Type) : Type := (exn + A)%type.

Definition type_name (v : json) : string :=
  match v with
  | JNull => "NoneType"
  | JBool _ => "bool"
  | JInt _ => "int"
  | JFloat _ => "float"
  | JStr _ => "str"
  | JArr _ => "list"
  | JObj _ => "dict"
  end.

(** [bool(v)]: Python truthiness. *)
Definition truthy (v : json) : bool :=
  match v with
  | JNull => false
  | JBool b => b
  | JInt z => negb (z =? 0)
  | JFloat x => match x with S754_zero _ => false | _ => true end
  | JStr s => negb (String.eqb s "")
  | JArr l => match l with [] => false | _ => true end
  | JObj kvs => match kvs with [] => false | _ => true end
  end.

Definition no_attribute (v : json) (a : string) : exn :=
  Raise AttributeError ("'" ++ type_name v ++ "' object has no attribute '" ++ a ++ "'").

(** [v.get(k, default)]: defined on dicts only. *)
Definition py_get (v : json) (k : string) (default : json) : res json :=
  match v with
  | JObj kvs => inr (match assoc k kvs with Some x => x | None => default end)
  | _ => inl (no_attribute v "get")
  end.

(** [v[k]] for a string key [k]. *)
Definition py_getitem (v : json) (k : string) : res json :=
  match v with
  | JObj kvs =>
      match assoc k kvs with
      | Some x => inr x
      | None => inl (Raise KeyError ("'" ++ k ++ "'"))
      end
  | JArr _ => inl (Raise TypeError "list indices must be integers or slices, not str")
  | JStr _ => inl (Raise TypeError "string indices must be integers, not 'str'")
  | _ => inl (Raise TypeError ("'" ++ type_name v ++ "' object is not subscriptable"))
  end.

(** [v[0]]. *)
Definition py_getitem0 (v : json) : res json :=
  match v with
  | JArr (x :: _) => inr x
  | JArr [] => inl (Raise IndexError "list index out of range")
  | JStr (String c _) => inr (JStr (String c EmptyString))
  | JStr EmptyString => inl (Raise IndexError "string index out of range")
  | JObj _ => inl (Raise KeyError "0")
  | _ => inl (Raise TypeError ("'" ++ type_name v ++ "' object is not subscriptable"))
  end.

(** The items [for x in v] visits. *)
Definition py_iter (v : json) : res (list json) :=
  match v with
  | JArr l => inr l
  | JObj kvs => inr (map (fun kv => JStr (fst kv)) kvs)
  | JStr s => inr (map (fun c => JStr (String c EmptyString)) (list_ascii_of_string s))
  | _ => inl (Raise TypeError ("'" ++ type_name v ++ "' object is not iterable"))
  end.

(** ** [format_duration] *)

Definition format_duration (minutes : Z) : string :=
  if minutes <? 60 then str_of_int minutes ++ " min"
  else
    let (h, m) := Z.div_eucl minutes 60 in
    if negb (m =? 0) then str_of_int h ++ "h " ++ str_of_int m ++ "min"
    else str_of_int h ++ "h".


(** [str(v)] of a value placed in an f-string; [repr] is the builtin. *)
Definition py_str (repr : json -> string) (v : json) : string :=
  match v with
  | JNull => "None"
  | JBool true => "True"
  | JBool false => "False"
  | JInt z => str_of_int z
  | JStr s => s
  | JFloat _ | JArr _ | JObj _ => repr v
  end.

(** ** The fixed tables *)

Definition MODE_COLOURS : list (string * string) :=
  [ ("tube", "#0019a8");
    ("walking", "#6b7280");
    ("bus", "#e53e3e");
    ("national-rail", "#1e7e34");
    ("overground", "#e87722");
    ("elizabeth-line", "#6950a1");
    ("dlr", "#009999") ].

Definition MODE_LABELS : list (string * string) :=
  [ ("tube", "Tube");
    ("walking", "Walk");
    ("bus", "Bus");
    ("national-rail", "Rail");
    ("overground", "Overground");
    ("elizabeth-line", "Elizabeth");
    ("dlr", "DLR") ].

(** [table.get(key, default)] for a table with string keys and a key that
    is any decoded value: lists and dicts are unhashable, and a key that is
    not a string equals no key of the table. *)
Definition table_get (table : list (string * string)) (key default : json) : res json :=
  match key with
  | JStr s => inr (match assoc s table with Some v => JStr v | None => default end)
  | JArr _ | JObj _ => inl (Raise TypeError ("unhashable type: '" ++ type_name key ++ "'"))
  | _ => inr default
  end.

(** ** HTTP *)

Record request : Type := {
  url : string;
  params : list (string * string);
  headers : list (string * string);
  timeout : Z
}.

(** A response: [body] is what [resp.json()] gives, the decoded document or
    the message of the [ValueError] raised when the body is not JSON. *)
Record response : Type := {
  status_code : Z;
  reason : string;
  resp_url : string;
  body : string + json
}.

(** The outcome of [requests.get]: it raises (connection failure, timeout)
    or returns a response. *)
Inductive http_result : Type :=
| ConnFail (msg : string)
| Got (r : response).

(** The outside world: the outcome of the [n]-th HTTP call of a run. *)
Definition world : Type := nat -> request -> http_result.

(** [resp.raise_for_status()], as the requests library defines it: an
    [HTTPError] for a status from 400 to 599, nothing otherwise. *)
Definition http_error_msg (r : response) : string :=
  if andb (400 <=? status_code r) (status_code r <? 500) then
    str_of_int (status_code r) ++ " Client Error: " ++ reason r ++ " for url: " ++ resp_url r
  else if andb (500 <=? status_code r) (status_code r <? 600) then
    str_of_int (status_code r) ++ " Server Error: " ++ reason r ++ " for url: " ++ resp_url r
  else "".

Definition raise_for_status (r : response) : res unit :=
  if andb (400 <=? status_code r) (status_code r <? 600)
  then inl (Raise HTTPError (http_error_msg r))
  else inr tt.

(** [resp.json()]. *)
Definition resp_json (r : response) : res json :=
  match body r with
  | inl msg => inl (Raise ValueError msg)
  | inr v => inr v
  end.

(** ** [geocode]: the query *)

Definition geocode_query (address : string) : string :=
  if str_in "london" (lower address) then address else address ++ ", London, UK".

Definition geocode_request (address : string) : request :=
  {| url := "https://nominatim.openstreetmap.org/search";
     params := [("q", geocode_query address); ("format", "json");
                ("limit", "1"); ("countrycodes", "gb")];
     headers := [("Accept-Language", "en"); ("User-Agent", "TubeJourneyPlanner/1.0")];
     timeout := 10 |}.

Definition not_found_msg (address : string) : string :=
  "Could not find location: " ++ dq ++ address ++ dq ++ ". Try a more specific address.".

(** ** The map *)

(** What the program puts on the map, for coordinates of type [F]. *)
Record marker (F : Type) : Type := {
  marker_at : F * F;
  popup : string;
  tooltip : string;
  icon_color : string;
  icon_name : string;
  icon_prefix : string
}.

Record polyline (F : Type) : Type := {
  points : list (F * F);
  line_color : string;
  weight : Z;
  dash_array : string;
  opacity : Q
}.

Record folium_map (F : Type) : Type := {
  location : F * F;
  zoom_start : Z;
  markers : list (marker F);
  lines : list (polyline F);
  bounds : list (F * F);
  padding : Z * Z
}.

Arguments marker_at {F}.
Arguments popup {F}.
Arguments tooltip {F}.
Arguments icon_color {F}.
Arguments icon_name {F}.
Arguments icon_prefix {F}.
Arguments points {F}.
Arguments line_color {F}.
Arguments weight {F}.
Arguments dash_array {F}.
Arguments opacity {F}.
Arguments location {F}.
Arguments zoom_start {F}.
Arguments markers {F}.
Arguments lines {F}.
Arguments bounds {F}.
Arguments padding {F}.

(** ** The builtins and libraries kept abstract *)

Record Builtins : Type := {
  float : Type;
  (** [float(s)] for a string; [None] when it raises [ValueError]. *)
  float_of_str : string -> option float;
  (** [float(n)] for an int; [None] when it raises [OverflowError]. *)
  float_of_int : Z -> option float;
  (** [str(x)], as an f-string prints a float. *)
  float_str : float -> string;
  float_add : float -> float -> float;
  (** [x / n] for an int [n]. *)
  float_div_int : float -> Z -> float;
  (** [repr(v)]. *)
  repr : json -> string;
  (** [float(x)] for a float of a decoded document: the float itself. *)
  float_of_ieee : spec_float -> float;
  (** [x < n] for a float [x] and an int [n]. *)
  float_lt_int : spec_float -> Z -> bool;
  (** [divmod(x, n)] for a float [x] and an int [n] that is not zero. *)
  float_divmod_int : spec_float -> Z -> spec_float * spec_float;
  (** What the map code raises, if it raises: [folium.Map], [folium.Marker]
      and [folium.PolyLine] refuse a coordinate that is not a number, and
      [st_folium] fails on a popup text it cannot compile. *)
  folium_raises : folium_map float -> option exn
}.

(** ** The program *)

Section App.

Variable rt : Builtins.
Variable w : world.

Local Abbreviation flt := (float rt).

(** [float(v)] of a decoded value. *)
Definition py_float (v : json) : res flt :=
  match v with
  | JStr s =>
      match float_of_str rt s with
      | Some x => inr x
      | None => inl (Raise ValueError ("could not convert string to float: " ++ repr rt v))
      end
  | JInt z =>
      match float_of_int rt z with
      | Some x => inr x
      | None => inl (Raise OverflowError "int too large to convert to float")
      end
  | JBool b =>
      match float_of_int rt (if b then 1 else 0) with
      | Some x => inr x
      | None => inl (Raise OverflowError "int too large to convert to float")
      end
  | JFloat x => inr (float_of_ieee rt x)
  | _ => inl (Raise TypeError ("float() argument must be a string or a real number, not '"
                                 ++ type_name v ++ "'"))
  end.

(** [format_duration] applied to a float: the same lines of the source,
    with the float comparison and [divmod], and the numbers printed by
    [repr] as an f-string prints a float. *)
Definition format_duration_float (x : spec_float) : string :=
  if float_lt_int rt x 60 then repr rt (JFloat x) ++ " min"
  else
    let (h, m) := float_divmod_int rt x 60 in
    if truthy (JFloat m)
    then repr rt (JFloat h) ++ "h " ++ repr rt (JFloat m) ++ "min"
    else repr rt (JFloat h) ++ "h".

(** [format_duration] applied to a decoded JSON value: the comparison
    [minutes < 60] is defined for numbers and [bool] only, and a [bool]
    that passes it is formatted by its name. *)
Definition format_duration_py (v : json) : res string :=
  match v with
  | JInt z => inr (format_duration z)
  | JFloat x => inr (format_duration_float x)
  | JBool true => inr "True min"
  | JBool false => inr "False min"
  | _ => inl (Raise TypeError ("'<' not supported between instances of '"
                                 ++ type_name v ++ "' and 'int'"))
  end.

(** *** What the user sees *)

(** The calls a run makes, in order: HTTP requests and Streamlit output.
    [Warning] and [Error] go to the result area, [Metric], [Markdown] and
    [Caption] are written inside it, [StFolium] draws in the right column. *)
Inductive event : Type :=
| HttpGet (req : request)
| Spinner (text : string)
| Warning (msg : string)
| Error (msg : string)
| Metric (label value : string)
| Markdown (text : string) (unsafe_allow_html : bool)
| Caption (text : string)
| StFolium (m : folium_map flt).

(** *** The state and exception monad *)

Record state : Type := { calls : nat; out : list event }.

Definition M (A : Type) : Type := state -> state * res A.

Definition ret {A : Type} (a : A) : M A := fun s => (s, inr a).

Definition bind {A B : Type} (m : M A) (k : A -> M B) : M B :=
  fun s =>
    match m s with
    | (s', inl e) => (s', inl e)
    | (s', inr a) => k a s'
    end.

Definition lift {A : Type} (r : res A) : M A := fun s => (s, r).

Definition raise {A : Type} (e : exn) : M A := fun s => (s, inl e).

Definition emit (e : event) : M unit :=
  fun s => ({| calls := calls s; out := out s ++ [e] |}, inr tt).

Notation "x <- m ;; k" := (bind m (fun x => k))
  (at level 61, m at next level, right associativity).
Notation "m ;;; k" := (bind m (fun _ => k))
  (at level 61, right associativity).

(** [requests.get(...)]: the call is recorded and the world answers. *)
Definition requests_get (req : request) : M response :=
  fun s =>
    let s' := {| calls := S (calls s); out := out s ++ [HttpGet req] |} in
    match w (calls s) req with
    | ConnFail msg => (s', inl (Raise RequestException msg))
    | Got r => (s', inr r)
    end.

(** *** [geocode] *)

Definition geocode (address : string) : M (flt * flt * json) :=
  resp <- requests_get (geocode_request address) ;;
  lift (raise_for_status resp) ;;;
  data <- lift (resp_json resp) ;;
  if negb (truthy data) then raise (Raise ValueError (not_found_msg address))
  else
    d0 <- lift (py_getitem0 data) ;;
    lat_v <- lift (py_getitem d0 "lat") ;;
    lat <- lift (py_float lat_v) ;;
    d1 <- lift (py_getitem0 data) ;;
    lon_v <- lift (py_getitem d1 "lon") ;;
    lon <- lift (py_float lon_v) ;;
    d2 <- lift (py_getitem0 data) ;;
    name <- lift (py_getitem d2 "display_name") ;;
    ret (lat, lon, name).

(** *** [get_tfl_journey] *)

Definition tfl_request (from_lat from_lng to_lat to_lng : flt) : request :=
  {| url := "https://api.tfl.gov.uk/Journey/JourneyResults/"
            ++ float_str rt from_lat ++ "," ++ float_str rt from_lng
            ++ "/to/" ++ float_str rt to_lat ++ "," ++ float_str rt to_lng;
     params := [("mode", "tube,walking"); ("nationalSearch", "false")];
     headers := [];
     timeout := 15 |}.

Definition get_tfl_journey (from_lat from_lng to_lat to_lng : flt) : M json :=
  resp <- requests_get (tfl_request from_lat from_lng to_lat to_lng) ;;
  lift (raise_for_status resp) ;;;
  lift (resp_json resp).

(** *** The handler of the "Calculate Journey" button *)

Local Notation "'let?' x := e 'in' k" :=
  (match e with inl err => inl err | inr x => k end)
  (at level 10, x name, e at level 100, k at level 200).

(** [leg.get("mode", {}).get("name", "walking")]. *)
Definition leg_mode (leg : json) : res json :=
  let? m := py_get leg "mode" (JObj []) in
  py_get m "name" (JStr "walking").

(** The [or] chain that picks the instruction of a leg. *)
Definition leg_summary (leg mode : json) : res json :=
  let? i1 := py_get leg "instruction" (JObj []) in
  let? a := py_get i1 "summary" JNull in
  if truthy a then inr a
  else
    let? i2 := py_get leg "instruction" (JObj []) in
    let? b := py_get i2 "detailed" JNull in
    if truthy b then inr b
    else table_get MODE_LABELS mode mode.

(** The badge and instruction of one step, as HTML. *)
Definition leg_html (colour label summary : string) : string :=
  "<span style=" ++ dq ++ "background:" ++ colour ++ ";color:#fff;"
  ++ "padding:2px 8px;border-radius:4px;font-size:12px;"
  ++ "font-weight:700" ++ dq ++ ">" ++ label ++ "</span> " ++ summary.

(** The body of the loop over the legs, up to its [st.markdown] call. *)
Definition render_leg (leg : json) : res string :=
  let? mode := leg_mode leg in
  let? summary := leg_summary leg mode in
  let? colour := table_get MODE_COLOURS mode (JStr "#374151") in
  let? label := table_get MODE_LABELS mode mode in
  inr (leg_html (py_str (repr rt) colour) (py_str (repr rt) label)
                (py_str (repr rt) summary)).

(** [for leg in ...]: the steps, in the order of the list. *)
Fixpoint render_legs (legs : list json) : M unit :=
  match legs with
  | [] => ret tt
  | leg :: rest =>
      html <- lift (render_leg leg) ;;
      emit (Markdown html true) ;;;
      render_legs rest
  end.

Definition nl : string := String (ascii_of_nat 10) EmptyString.

Definition no_journey_msg : string :=
  "No tube journey found. Locations may be outside the TfL network "
  ++ "or too close together.".

Definition journey_map (from_input to_input : string)
    (from_lat from_lng to_lat to_lng : flt) : folium_map flt :=
  let center_lat := float_div_int rt (float_add rt from_lat to_lat) 2 in
  let center_lng := float_div_int rt (float_add rt from_lng to_lng) 2 in
  {| location := (center_lat, center_lng);
     zoom_start := 12;
     markers :=
       [ {| marker_at := (from_lat, from_lng);
            popup := "<b>Your Location</b><br>" ++ from_input;
            tooltip := "Your Location (A)";
            icon_color := "blue";
            icon_name := "home";
            icon_prefix := "fa" |};
         {| marker_at := (to_lat, to_lng);
            popup := "<b>Office Location</b><br>" ++ to_input;
            tooltip := "Office Location (B)";
            icon_color := "red";
            icon_name := "briefcase";
            icon_prefix := "fa" |} ];
     lines :=
       [ {| points := [(from_lat, from_lng); (to_lat, to_lng)];
            line_color := "#0019a8";
            weight := 2;
            dash_array := "6 6";
            opacity := 7 # 10 |} ];
     bounds := [(from_lat, from_lng); (to_lat, to_lng)];
     padding := (50, 50) |}.

(** The map code, from [folium.Map] to [st_folium]: the map is drawn
    unless one of the calls raises. *)
Definition draw_map (m : folium_map flt) : M unit :=
  match folium_raises rt m with
  | Some e => raise e
  | None => emit (StFolium m)
  end.

(** The results panel and the map drawn for the chosen journey. *)
Definition render_journey (from_input to_input : string)
    (from_lat from_lng to_lat to_lng : flt) (journey : json) : M unit :=
  duration <- lift (py_getitem journey "duration") ;;
  text <- lift (format_duration_py duration) ;;
  emit (Metric "Fastest Journey Time" text) ;;;
  emit (Markdown ("**From:** " ++ from_input ++ "  " ++ nl ++ "**To:** " ++ to_input) false) ;;;
  emit (Markdown "**Steps**" false) ;;;
  legs_v <- lift (py_getitem journey "legs") ;;
  legs <- lift (py_iter legs_v) ;;
  render_legs legs ;;;
  emit (Caption "Journey data © Transport for London") ;;;
  draw_map (journey_map from_input to_input from_lat from_lng to_lat to_lng).

(** The branch on the answer of the journey service. *)
Definition present_result (from_input to_input : string)
    (from_lat from_lng to_lat to_lng : flt) (data : json) : M unit :=
  journeys <- lift (py_get data "journeys" JNull) ;;
  if negb (truthy journeys) then emit (Error no_journey_msg)
  else
    js <- lift (py_getitem data "journeys") ;;
    journey <- lift (py_getitem0 js) ;;
    render_journey from_input to_input from_lat from_lng to_lat to_lng journey.

(** The body of the [try]. *)
Definition try_body (from_input to_input : string) : M unit :=
  a <- geocode from_input ;;
  b <- geocode to_input ;;
  let '(from_lat, from_lng, _) := a in
  let '(to_lat, to_lng, _) := b in
  data <- get_tfl_journey from_lat from_lng to_lat to_lng ;;
  present_result from_input to_input from_lat from_lng to_lat to_lng data.

(** The [except] clauses, in order: [ValueError], [requests.HTTPError],
    [Exception]. *)
Definition handler_msg (e : exn) : string :=
  match exn_cls e with
  | ValueError => exn_msg e
  | HTTPError => "API error: " ++ exn_msg e
  | _ => "Something went wrong: " ++ exn_msg e
  end.

(** [try: body except ...]: an exception of the body becomes an error
    message in the result area. *)
Definition catch (body : M unit) : M unit :=
  fun s =>
    match body s with
    | (s', inr tt) => (s', inr tt)
    | (s', inl e) => emit (Error (handler_msg e)) s'
    end.

Definition spinner_text : string :=
  "Geocoding locations and fetching TfL journey…".

(** The run started by pressing "Calculate Journey". *)
Definition calculate (from_input to_input : string) : M unit :=
  if orb (negb (truthy (JStr from_input))) (negb (truthy (JStr to_input)))
  then emit (Warning "Please enter both locations.")
  else
    emit (Spinner spinner_text) ;;;
    catch (try_body from_input to_input).

Definition init : state := {| calls := 0; out := [] |}.

(** What [geocode] gives when it makes the [n]-th call of a run. *)
Definition located (n : nat) (address : string) : res (flt * flt * json) :=
  snd (geocode address {| calls := n; out := [] |}).

(** The events of a run, in order. *)
Definition trace (from_input to_input : string) : list event :=
  out (fst (calculate from_input to_input init)).

End App.

Arguments HttpGet {rt}.
Arguments Spinner {rt}.
Arguments Warning {rt}.
Arguments Error {rt}.
Arguments Metric {rt}.
Arguments Markdown {rt}.
Arguments Caption {rt}.
Arguments StFolium {rt}.
Arguments calls {rt}.
Arguments out {rt}.
Arguments Build_state {rt}.

(** ** What the specification calls "containing london (case-insensitive)" *)

(** [c] is the letter [p] in either case, for a lower-case letter [p]. *)
Definition same_letter (c p : ascii) : Prop :=
  c = p \/ (65 <= nat_of_ascii c <= 90 /\ nat_of_ascii p = nat_of_ascii c + 32)%nat.

(** [t] spells the lower-case word [p], letter by letter, in any case. *)
Fixpoint spells (t p : string) : Prop :=
  match t, p with
  | EmptyString, EmptyString => True
  | String c t', String d p' => same_letter c d /\ spells t' p'
  | _, _ => False
  end.

(** Every character of the word is one of [a]..[z]. *)
Fixpoint lowercase_word (p : string) : Prop :=
  match p with
  | EmptyString => True
  | String d p' => (97 <= nat_of_ascii d <= 122)%nat /\ lowercase_word p'
  end.

(** The address has an occurrence of "london" in some mix of cases. *)
Definition mentions_london (address : string) : Prop :=
  exists pre mid post, address = pre ++ mid ++ post /\ spells mid "london".

(** The requests of a trace, in order. *)
Fixpoint requests_of {rt : Builtins} (tr : list (event rt)) : list request :=
  match tr with
  | [] => []
  | HttpGet req :: rest => req :: requests_of rest
  | _ :: rest => requests_of rest
  end.

(** A computation that makes no HTTP call: it only appends events that
    are not requests. *)
Definition quiet {rt : Builtins} {A : Type} (m : M rt A) : Prop :=
  forall s, exists evs,
    fst (m s) = {| calls := calls s; out := (out s ++ evs)%list |}
    /\ requests_of evs = [].

(** An event of the results panel or the map: something drawn for a
    journey. *)
Definition is_rendering {rt : Builtins} (e : event rt) : bool :=
  match e with
  | Metric _ _ | Markdown _ _ | Caption _ | StFolium _ => true
  | _ => false
  end.

(** The field [key] of the object stored under [obj] in a leg, when the
    leg has such an object and the object has the field. *)
Definition leg_field (fields : list (string * json)) (obj key : string) : option json :=
  match assoc obj fields with
  | Some (JObj o) => assoc key o
  | _ => None
  end.

(** The entry [obj] of a leg is absent or is an object. *)
Definition absent_or_object (fields : list (string * json)) (obj : string) : Prop :=
  assoc obj fields = None \/ exists o, assoc obj fields = Some (JObj o).

(** A field that gives no text: absent, or present with a falsy value
    (the empty string, null). *)
Definition gives_no_text (f : option json) : Prop :=
  match f with
  | None => True
  | Some v => truthy v = false
  end.

(** The label of the badge for a mode name. *)
Definition label_of (name : string) : string :=
  match assoc name MODE_LABELS with Some l => l | None => name end.

(** The colour of the badge for a mode name. *)
Definition colour_of (name : string) : string :=
  match assoc name MODE_COLOURS with Some c => c | None => "#374151" end.

(** A field with the empty string read as a missing field. *)
Definition drop_empty (f : option json) : option json :=
  match f with
  | Some (JStr EmptyString) => None
  | _ => f
  end.

(** The value of a field when it gives text. *)
Definition text_of (f : option json) : option json :=
  match f with
  | Some v => if truthy v then Some v else None
  | None => None
  end.

(** The first of the candidates that is a non-empty string, and [last]
    when there is none. *)
Fixpoint first_nonempty (cands : list (option string)) (last : string) : string :=
  match cands with
  | [] => last
  | Some (String c t) :: _ => String c t
  | _ :: rest => first_nonempty rest last
  end.

(** ** A concrete runtime and concrete worlds, to run the program on *)

(** Floats kept as the text that denotes them. *)
Definition text_rt : Builtins :=
  {| float := string;
     float_of_str := fun s => Some s;
     float_of_int := fun z => Some (str_of_int z);
     float_str := fun x => x;
     float_add := fun x y => x ++ "+" ++ y;
     float_div_int := fun x n => "(" ++ x ++ ")/" ++ str_of_int n;
     repr := fun _ => "<repr>";
     float_of_ieee := fun _ => "<float>";
     float_lt_int := fun x n => SFltb x (binary_normalize 53 1024 n 0 false);
     float_divmod_int := fun x _ => (S754_nan, S754_nan);
     folium_raises := fun _ => None |}.

Definition ok_response (v : json) : response :=
  {| status_code := 200; reason := "OK"; resp_url := ""; body := inr v |}.

Definition place (lat lon name : string) : json :=
  JArr [JObj [("lat", JStr lat); ("lon", JStr lon); ("display_name", JStr name)]].

Definition walk_leg : json :=
  JObj [("mode", JObj [("name", JStr "walking")]);
        ("instruction", JObj [("summary", JStr "Walk to Baker Street Station")])].

Definition tube_leg : json :=
  JObj [("mode", JObj [("name", JStr "tube")]);
        ("instruction", JObj [("summary", JStr "Jubilee line to Canary Wharf")])].

Definition journey_45 : json :=
  JObj [("duration", JInt 45); ("legs", JArr [walk_leg; tube_leg])].

(** A leg with an empty summary and a detailed instruction. *)
Definition leg_empty_summary : json :=
  JObj [("mode", JObj [("name", JStr "walking")]);
        ("instruction", JObj [("summary", JStr "");
                              ("detailed", JStr "Walk to the platform")])].

(** The same leg without the summary. *)
Definition leg_detailed_only : json :=
  JObj [("mode", JObj [("name", JStr "walking")]);
        ("instruction", JObj [("detailed", JStr "Walk to the platform")])].

(** A leg with neither mode nor instruction text. *)
Definition leg_bare : json := JObj [("instruction", JObj [])].

(** Both addresses resolve; the third call is answered by [tfl]. *)
Definition world_with (tfl : http_result) : world :=
  fun n _ =>
    match n with
    | O => Got (ok_response (place "51.5226" "-0.1571" "Baker Street, London"))
    | S O => Got (ok_response (place "51.5054" "-0.0235" "Canary Wharf, London"))
    | _ => tfl
    end.

(** The scenario of the specification: one journey of 45 minutes with a
    walking leg and a tube leg. *)
Definition world_45 : world :=
  world_with (Got (ok_response (JObj [("journeys", JArr [journey_45])]))).

(** The journey service has nothing to offer. *)
Definition world_empty : world :=
  world_with (Got (ok_response (JObj [("journeys", JArr [])]))).

(** The geocoder finds nothing. *)
Definition world_nowhere : world :=
  fun _ _ => Got (ok_response (JArr [])).

(** Every call is answered with the given status and a body that is not
    JSON. *)
Definition world_status (code : Z) (why : string) : world :=
  fun _ req =>
    Got {| status_code := code; reason := why; resp_url := url req;
           body := inl "Expecting value: line 1 column 1 (char 0)" |}.

(** ** Predicates for the further properties *)

(** A character of the decimal text of an integer: a digit or the sign. *)
Definition numeric_char (c : ascii) : bool :=
  let n := nat_of_ascii c in
  orb (andb (Nat.leb 48 n) (Nat.leb n 57)) (Nat.eqb n 45).

Fixpoint numeric (s : string) : bool :=
  match s with
  | EmptyString => true
  | String c s' => andb (numeric_char c) (numeric s')
  end.

(** What [geocode] and [get_tfl_journey] raise on the outcome of their
    call before they look into the document, if they raise. *)
Definition response_raises (res : http_result) : option exn :=
  match res with
  | ConnFail msg => Some (Raise RequestException msg)
  | Got r =>
      match raise_for_status r with
      | inl e => Some e
      | inr _ =>
          match resp_json r with
          | inl e => Some e
          | inr _ => None
          end
      end
  end.

(** An event that ends a run: the warning, an error message or the map. *)
Definition is_terminal {rt : Builtins} (e : event rt) : bool :=
  match e with
  | Warning _ | Error _ | StFolium _ => true
  | _ => false
  end.

Definition not_terminal {rt : Builtins} (e : event rt) : bool :=
  negb (is_terminal e).

(** A computation that appends events that end nothing, whatever its
    result. *)
Definition plain {rt : Builtins} {A : Type} (m : M rt A) : Prop :=
  forall s, exists evs,
    fst (m s) = {| calls := calls s; out := (out s ++ evs)%list |}
    /\ forallb not_terminal evs = true.

(** A computation that either returns after one final event, or raises
    after none. *)
Definition ends_once {rt : Builtins} (m : M rt unit) : Prop :=
  forall s, exists evs,
    forallb not_terminal evs = true
    /\ ((exists last,
           is_terminal last = true
           /\ m s = ({| calls := calls s; out := (out s ++ evs ++ [last])%list |},
                     inr tt))
        \/ (exists e,
              m s = ({| calls := calls s; out := (out s ++ evs)%list |}, inl e))).

(** No connection at all. *)
Definition world_offline : world := fun _ _ => ConnFail "Connection refused".

(** A candidate without a longitude. *)
Definition world_no_lon : world :=
  fun _ _ => Got (ok_response (JArr [JObj [("lat", JStr "51.5")]])).

(** A journey whose second leg has a mode that is not an object. *)
Definition journey_bad_leg : json :=
  JObj [("duration", JInt 45);
        ("legs", JArr [walk_leg; JObj [("mode", JStr "tube")]; tube_leg])].

(** A decimal text: not empty, made of digits, the sign and the point. *)
Fixpoint decimal_chars (s : string) : bool :=
  match s with
  | EmptyString => true
  | String c s' =>
      andb (orb (numeric_char c) (Ascii.eqb c ".")) (decimal_chars s')
  end.

(** As [text_rt], with [float] refusing what is not a decimal text. *)
Definition checked_rt : Builtins :=
  {| float := string;
     float_of_str :=
       fun s => if andb (negb (String.eqb s "")) (decimal_chars s)
                then Some s else None;
     float_of_int := fun z => Some (str_of_int z);
     float_str := fun x => x;
     float_add := fun x y => x ++ "+" ++ y;
     float_div_int := fun x n => "(" ++ x ++ ")/" ++ str_of_int n;
     repr := fun v => match v with
                      | JStr t => "'" ++ t ++ "'"
                      | _ => "<repr>"
                      end;
     float_of_ieee := fun _ => "<float>";
     float_lt_int := fun x n => SFltb x (binary_normalize 53 1024 n 0 false);
     float_divmod_int := fun x _ => (S754_nan, S754_nan);
     folium_raises := fun _ => None |}.

(** A candidate whose latitude is a word. *)
Definition world_bad_lat : world :=
  fun _ _ => Got (ok_response (JArr [JObj [("lat", JStr "north")]])).

(** An object where the list of candidates should be. *)
Definition world_object : world :=
  fun _ _ => Got (ok_response (JObj [("error", JStr "Unable to geocode")])).

(** A journey without legs. *)
Definition journey_no_legs : json := JObj [("duration", JInt 45)].

(** A leg whose mode name is a number. *)
Definition leg_numeric_mode : json := JObj [("mode", JObj [("name", JInt 7)])].

(** * Properties *)

(** ** Strings *)

Lemma startswith_iff (p s : string) :
  startswith p s = true <-> exists post, s = p ++ post.
Proof.
  revert s; induction p as [|a p IH]; intros s; simpl.
  - split; [intros _; now exists s | reflexivity].
  - destruct s as [|b s].
    + split; [discriminate | intros [post H]; discriminate].
    + rewrite andb_true_iff, Ascii.eqb_eq, IH. split.
      * intros [-> [post ->]]. now exists post.
      * intros [post H]. injection H as -> ->. split; [reflexivity | now exists post].
Qed.

Lemma str_in_iff (p s : string) :
  str_in p s = true <-> exists pre post, s = pre ++ p ++ post.
Proof.
  induction s as [|c s IH].
  - simpl. rewrite orb_false_r, startswith_iff. split.
    + intros [post H]. now exists "", post.
    + intros [pre [post H]]. destruct pre; [now exists post | discriminate].
  - cbn [str_in]. rewrite orb_true_iff, startswith_iff, IH. split.
    + intros [[post H] | [pre [post H]]].
      * now exists "", post.
      * exists (String c pre), post. simpl. now rewrite H.
    + intros [pre [post H]]. destruct pre as [|c' pre].
      * left. now exists post.
      * right. simpl in H. injection H as _ H. now exists pre, post.
Qed.

Lemma lower_app (a b : string) : lower (a ++ b) = lower a ++ lower b.
Proof. induction a; simpl; [reflexivity | now rewrite IHa]. Qed.

Lemma lower_split (s a b : string) :
  lower s = a ++ b -> exists s1 s2, s = s1 ++ s2 /\ lower s1 = a /\ lower s2 = b.
Proof.
  revert s; induction a as [|c a IH]; intros s H.
  - now exists "", s.
  - destruct s as [|d s]; [discriminate|].
    simpl in H. injection H as Hc H.
    destruct (IH _ H) as [s1 [s2 [-> [H1 H2]]]].
    exists (String d s1), s2. simpl. now rewrite Hc, H1.
Qed.

Lemma lower_ascii_letter (c p : ascii) :
  (97 <= nat_of_ascii p <= 122)%nat ->
  lower_ascii c = p <-> same_letter c p.
Proof.
  intros Hp. unfold lower_ascii, same_letter.
  destruct (Nat.leb_spec 65 (nat_of_ascii c)) as [H1|H1];
    destruct (Nat.leb_spec (nat_of_ascii c) 90) as [H2|H2]; simpl.
  - split.
    + intros H. right. split; [lia|].
      rewrite <- H, nat_ascii_embedding; lia.
    + intros [->|[_ H]]; [lia|].
      rewrite <- H. apply ascii_nat_embedding.
  - split; [now left | intros [H|[H _]]; [assumption | lia]].
  - split; [now left | intros [H|[H _]]; [assumption | lia]].
  - split; [now left | intros [H|[H _]]; [assumption | lia]].
Qed.

Lemma lower_spells (t p : string) :
  lowercase_word p -> lower t = p <-> spells t p.
Proof.
  revert t; induction p as [|d p IH]; intros t Hp.
  - destruct t; simpl; split; try reflexivity; try discriminate; intros [].
  - destruct Hp as [Hd Hp]. destruct t as [|c t]; simpl.
    + split; [discriminate | intros []].
    + rewrite <- (IH t Hp), <- (lower_ascii_letter c d Hd). split.
      * intros H. now injection H.
      * intros [-> ->]. reflexivity.
Qed.

Lemma london_lowercase : lowercase_word "london".
Proof. unfold lowercase_word. repeat split; apply Nat.leb_le; reflexivity. Qed.

Lemma str_app_assoc (a b c : string) : (a ++ b) ++ c = a ++ b ++ c.
Proof. induction a; simpl; [reflexivity | now rewrite IHa]. Qed.

Lemma has_char_middle (c : ascii) (v post : string) :
  has_char c (v ++ String c post) = true.
Proof.
  induction v as [|d v IH]; simpl.
  - now rewrite Ascii.eqb_refl.
  - rewrite IH. apply orb_true_r.
Qed.

(** An occurrence of [c] in [x ++ y] lies in [y] when [x] has no [c]. *)
Lemma skip_prefix (x y pre rest : string) (c : ascii) :
  has_char c x = false ->
  x ++ y = pre ++ String c rest ->
  exists pre', pre = x ++ pre' /\ y = pre' ++ String c rest.
Proof.
  revert pre; induction x as [|d x IH]; intros pre Hc H.
  - now exists pre.
  - simpl in Hc. apply orb_false_iff in Hc. destruct Hc as [Hd Hx].
    destruct pre as [|d' pre]; simpl in H; injection H as -> H.
    + now rewrite Ascii.eqb_refl in Hd.
    + destruct (IH pre Hx H) as [pre' [-> ->]]. now exists pre'.
Qed.

(** An occurrence of [c] in [a ++ y] lies in [a] when [y] has no [c]. *)
Lemma skip_suffix (a y v post : string) (c : ascii) :
  has_char c y = false ->
  a ++ y = v ++ String c post ->
  exists post', a = v ++ String c post'.
Proof.
  revert a; induction v as [|d v IH]; intros a Hc H.
  - destruct a as [|c' a]; simpl in H.
    + subst y. simpl in Hc. now rewrite Ascii.eqb_refl in Hc.
    + injection H as -> _. now exists a.
  - destruct a as [|d' a]; simpl in H.
    + subst y. change (String d (v ++ String c post))
        with (String d v ++ String c post) in Hc.
      now rewrite has_char_middle in Hc.
    + injection H as -> H. destruct (IH a Hc H) as [post' ->]. now exists post'.
Qed.

(** The test of the program decides the specification's predicate. *)
Lemma london_test_iff (address : string) :
  str_in "london" (lower address) = true <-> mentions_london address.
Proof.
  rewrite str_in_iff. unfold mentions_london. split.
  - intros [pre' [post' H]].
    destruct (lower_split _ _ _ H) as [pre [rest [-> [_ H2]]]].
    destruct (lower_split _ _ _ H2) as [mid [post [-> [Hm _]]]].
    exists pre, mid, post. split; [reflexivity|].
    now apply (lower_spells mid "london" london_lowercase).
  - intros [pre [mid [post [-> Hm]]]].
    apply (lower_spells mid "london" london_lowercase) in Hm.
    exists (lower pre), (lower post). now rewrite !lower_app, Hm.
Qed.

(** ** [format_duration] *)

(** C1: for a non-negative number of minutes below 60 the result is
    "<M> min"; from 60 on it is "<H>h <M>min" with H the whole hours and M
    the remaining minutes (1 <= H, 0 <= M < 60, minutes = 60 H + M), and
    just "<H>h" when M is zero; the five values the specification lists
    are as listed. *)
Theorem format_duration_spec (minutes : Z) :
  0 <= minutes ->
  (minutes < 60 -> format_duration minutes = str_of_int minutes ++ " min")
  /\ (60 <= minutes ->
      exists H M, minutes = 60 * H + M /\ 1 <= H /\ 0 <= M < 60 /\
        (M = 0 -> format_duration minutes = str_of_int H ++ "h") /\
        (M <> 0 -> format_duration minutes
                   = str_of_int H ++ "h " ++ str_of_int M ++ "min"))
  /\ format_duration 0 = "0 min"
  /\ format_duration 59 = "59 min"
  /\ format_duration 60 = "1h"
  /\ format_duration 90 = "1h 30min"
  /\ format_duration 125 = "2h 5min".
Proof.
  intros Hnn. split; [|split; [|repeat split]].
  - intros Hlt. unfold format_duration.
    destruct (Z.ltb_spec minutes 60); [reflexivity | lia].
  - intros Hge. exists (minutes / 60), (minutes mod 60).
    pose proof (Z.div_mod minutes 60 ltac:(lia)) as Hdm.
    pose proof (Z.mod_pos_bound minutes 60 ltac:(lia)) as Hb.
    assert (1 <= minutes / 60) by (apply Z.div_le_lower_bound; lia).
    repeat split; try lia.
    + intros HM. unfold format_duration.
      destruct (Z.ltb_spec minutes 60); [lia|].
      unfold Z.modulo, Z.div in *.
      destruct (Z.div_eucl minutes 60) as [h m]. simpl in *. subst m. reflexivity.
    + intros HM. unfold format_duration.
      destruct (Z.ltb_spec minutes 60); [lia|].
      unfold Z.modulo, Z.div in *.
      destruct (Z.div_eucl minutes 60) as [h m]. simpl in *.
      destruct (Z.eqb_spec m 0); [contradiction | reflexivity].
Qed.

Lemma format_duration_spec_witness :
  format_duration 59 = str_of_int 59 ++ " min"
  /\ exists H M, 125 = 60 * H + M /\ 1 <= H /\ 0 <= M < 60 /\
       (M <> 0 -> format_duration 125 = str_of_int H ++ "h " ++ str_of_int M ++ "min").
Proof.
  split.
  - apply (format_duration_spec 59); lia.
  - destruct (format_duration_spec 125 ltac:(lia)) as [_ [H _]].
    destruct (H ltac:(lia)) as [h [m [E [Hh [Hm [_ Hf]]]]]].
    exists h, m. repeat split; try lia. exact Hf.
Defined.

(** ** The effectful program *)

Section Properties.

Variable rt : Builtins.
Variable w : world.

(** Case analysis on the scrutinee of an innermost [match] of the goal. *)
Ltac break_match :=
  match goal with
  | |- context [match ?x with _ => _ end] =>
      lazymatch x with
      | context [match _ with _ => _ end] => fail
      | _ => destruct x eqn:?
      end
  end.

(** Whatever the world answers, [geocode] makes one call. *)
Lemma geocode_state (address : string) (s : state rt) :
  fst (geocode rt w address s)
  = {| calls := S (calls s); out := (out s ++ [HttpGet (geocode_request address)])%list |}.
Proof.
  unfold geocode, bind, requests_get, lift, raise, ret.
  repeat (break_match; simpl; try reflexivity).
Qed.

Lemma get_tfl_journey_state (a b c d : float rt) (s : state rt) :
  fst (get_tfl_journey rt w a b c d s)
  = {| calls := S (calls s); out := (out s ++ [HttpGet (tfl_request rt a b c d)])%list |}.
Proof.
  unfold get_tfl_journey, bind, requests_get, lift.
  repeat (break_match; simpl; try reflexivity).
Qed.

Lemma geocode_eq (address : string) (s : state rt) :
  geocode rt w address s
  = ({| calls := S (calls s); out := (out s ++ [HttpGet (geocode_request address)])%list |},
     snd (geocode rt w address s)).
Proof. rewrite <- geocode_state. apply surjective_pairing. Qed.

Lemma get_tfl_journey_eq (a b c d : float rt) (s : state rt) :
  get_tfl_journey rt w a b c d s
  = ({| calls := S (calls s); out := (out s ++ [HttpGet (tfl_request rt a b c d)])%list |},
     snd (get_tfl_journey rt w a b c d s)).
Proof. rewrite <- get_tfl_journey_state. apply surjective_pairing. Qed.

(** C2: [geocode] sends one request, for at most one candidate in the
    United Kingdom; its query is the address followed by ", London, UK"
    when the address does not mention london in any mix of cases, and the
    address itself when it does. *)
Theorem geocode_sends_query (address : string) (s : state rt) :
  exists req,
    out (fst (geocode rt w address s)) = (out s ++ [HttpGet req])%list
    /\ url req = "https://nominatim.openstreetmap.org/search"
    /\ assoc "limit" (params req) = Some "1"
    /\ assoc "countrycodes" (params req) = Some "gb"
    /\ (~ mentions_london address ->
        assoc "q" (params req) = Some (address ++ ", London, UK"))
    /\ (mentions_london address -> assoc "q" (params req) = Some address).
Proof.
  exists (geocode_request address). rewrite geocode_state. simpl.
  do 4 (split; [reflexivity|]).
  unfold geocode_query.
  destruct (str_in "london" (lower address)) eqn:E.
  - apply london_test_iff in E. split; [intros H; contradiction | reflexivity].
  - split; [reflexivity|]. intros H. apply london_test_iff in H. congruence.
Qed.

(** The message of the error does not hold the query with the suffix. *)
Lemma not_found_msg_without_query (address : string) :
  ~ mentions_london address ->
  str_in (geocode_query address) (not_found_msg address) = false.
Proof.
  intros Hno. destruct (str_in _ _) eqn:E; [exfalso | reflexivity].
  apply str_in_iff in E. destruct E as [pre [post E]].
  assert (Hq : geocode_query address = address ++ ", London, UK").
  { unfold geocode_query. destruct (str_in "london" (lower address)) eqn:T;
      [apply london_test_iff in T; contradiction | reflexivity]. }
  rewrite Hq in E. unfold not_found_msg in E.
  assert (E1 : ("Could not find location: " ++ dq)
               ++ (address ++ dq ++ ". Try a more specific address.")
               = (pre ++ address ++ ", ") ++ String "L" ("ondon, UK" ++ post)).
  { rewrite str_app_assoc, E. repeat rewrite str_app_assoc. reflexivity. }
  apply skip_prefix in E1; [|reflexivity].
  destruct E1 as [pre' [_ E2]].
  assert (E3 : address ++ (dq ++ ". Try a more specific address.")
               = (pre' ++ "Londo") ++ String "n" (", UK" ++ post)).
  { rewrite E2. repeat rewrite str_app_assoc. reflexivity. }
  apply skip_suffix in E3; [|reflexivity].
  destruct E3 as [post' E3]. apply Hno.
  exists pre', "London", post'. split.
  - rewrite E3. repeat rewrite str_app_assoc. reflexivity.
  - simpl. unfold same_letter. repeat split; try (now left).
    right. split; [split; apply Nat.leb_le; reflexivity | reflexivity].
Qed.

(** C3: when the geocoding service answers with an empty list of
    candidates, [geocode] raises the "could not find location" error and
    returns no location; the message quotes the address as given, and when
    the query differs from the address (the suffix was added) the query
    does not occur in the message. *)
Theorem geocode_not_found (address : string) (s : state rt) (r : response) :
  w (calls s) (geocode_request address) = Got r ->
  raise_for_status r = inr tt ->
  body r = inr (JArr []) ->
  snd (geocode rt w address s)
  = inl (Raise ValueError
           ("Could not find location: " ++ dq ++ address ++ dq
            ++ ". Try a more specific address."))
  /\ (forall loc, snd (geocode rt w address s) <> inr loc)
  /\ handler_msg (Raise ValueError (not_found_msg address))
     = "Could not find location: " ++ dq ++ address ++ dq
       ++ ". Try a more specific address."
  /\ (~ mentions_london address ->
      str_in (geocode_query address) (not_found_msg address) = false).
Proof.
  intros Hw Hst Hb.
  assert (E : snd (geocode rt w address s)
              = inl (Raise ValueError (not_found_msg address))).
  { unfold geocode, bind, requests_get, lift, raise, resp_json.
    rewrite Hw, Hst, Hb. reflexivity. }
  split; [exact E | split; [|split; [reflexivity|]]].
  - intros loc. rewrite E. discriminate.
  - apply not_found_msg_without_query.
Qed.

(** *** Computations that make no HTTP call *)

Lemma requests_of_app (a b : list (event rt)) :
  requests_of (a ++ b) = (requests_of a ++ requests_of b)%list.
Proof.
  induction a as [|e a IH]; [reflexivity|].
  destruct e; simpl; now rewrite IH.
Qed.

Lemma state_eta (s : state rt) :
  s = {| calls := calls s; out := (out s ++ [])%list |}.
Proof. destruct s; simpl. now rewrite app_nil_r. Qed.

Lemma quiet_lift (A : Type) (r : res A) : quiet (lift rt r).
Proof. intros s. exists []. split; [apply state_eta | reflexivity]. Qed.

Lemma quiet_ret (A : Type) (a : A) : quiet (ret rt a).
Proof. intros s. exists []. split; [apply state_eta | reflexivity]. Qed.

Lemma quiet_emit (e : event rt) : requests_of [e] = [] -> quiet (emit rt e).
Proof. intros H s. exists [e]. split; [reflexivity | exact H]. Qed.

Lemma quiet_bind (A B : Type) (m : M rt A) (k : A -> M rt B) :
  quiet m -> (forall a, quiet (k a)) -> quiet (bind rt m k).
Proof.
  intros Hm Hk s. unfold bind.
  destruct (Hm s) as [evs [E1 R1]].
  destruct (m s) as [s1 [e|a]]; simpl in E1; subst s1.
  - now exists evs.
  - destruct (Hk a {| calls := calls s; out := (out s ++ evs)%list |})
      as [evs' [E2 R2]].
    exists (evs ++ evs')%list. simpl in E2. rewrite E2, app_assoc.
    split; [reflexivity|]. now rewrite requests_of_app, R1, R2.
Qed.

Lemma quiet_render_legs (legs : list json) : quiet (render_legs rt legs).
Proof.
  induction legs as [|leg legs IH]; simpl.
  - apply quiet_ret.
  - apply quiet_bind; [apply quiet_lift | intros html].
    apply quiet_bind; [now apply quiet_emit | intros _; exact IH].
Qed.

Lemma quiet_draw_map (m : folium_map (float rt)) : quiet (draw_map rt m).
Proof.
  unfold draw_map. destruct (folium_raises rt m) as [e|].
  - intros s. exists []. split; [apply state_eta | reflexivity].
  - now apply quiet_emit.
Qed.

Lemma quiet_render_journey (f t : string) (a b c d : float rt) (j : json) :
  quiet (render_journey rt f t a b c d j).
Proof.
  unfold render_journey.
  repeat (first [ apply quiet_bind; [|intros ?]
                | apply quiet_lift
                | apply quiet_render_legs
                | apply quiet_draw_map
                | apply quiet_emit; reflexivity ]).
Qed.

Lemma quiet_present_result (f t : string) (a b c d : float rt) (data : json) :
  quiet (present_result rt f t a b c d data).
Proof.
  unfold present_result.
  apply quiet_bind; [apply quiet_lift | intros js].
  destruct (negb (truthy js)).
  - now apply quiet_emit.
  - apply quiet_bind; [apply quiet_lift | intros ?].
    apply quiet_bind; [apply quiet_lift | intros ?].
    apply quiet_render_journey.
Qed.

(** *** The handler *)

(** No exception leaves the handler. *)
Lemma calculate_returns (from_input to_input : string) (s : state rt) :
  snd (calculate rt w from_input to_input s) = inr tt.
Proof.
  unfold calculate.
  destruct (negb (truthy (JStr from_input)) || negb (truthy (JStr to_input)))%bool;
    [reflexivity|].
  unfold bind at 1, catch. simpl.
  destruct (try_body rt w from_input to_input _) as [s' [e|[]]]; reflexivity.
Qed.

Lemma geocode_snd (address : string) (s : state rt) :
  snd (geocode rt w address s) = located rt w (calls s) address.
Proof.
  unfold located, geocode, bind, requests_get, lift, raise, ret. simpl.
  repeat (break_match; simpl; try reflexivity).
Qed.

Lemma located_http_error (n : nat) (address : string) (r : response) :
  w n (geocode_request address) = Got r ->
  400 <= status_code r < 600 ->
  located rt w n address = inl (Raise HTTPError (http_error_msg r)).
Proof.
  intros Hw Hst. unfold located, geocode, bind, requests_get, lift, raise_for_status.
  simpl. rewrite Hw.
  replace (400 <=? status_code r) with true by (symmetry; apply Z.leb_le; lia).
  replace (status_code r <? 600) with true by (symmetry; apply Z.ltb_lt; lia).
  reflexivity.
Qed.

Lemma tfl_http_error (a b c d : float rt) (s : state rt) (r : response) :
  w (calls s) (tfl_request rt a b c d) = Got r ->
  400 <= status_code r < 600 ->
  snd (get_tfl_journey rt w a b c d s) = inl (Raise HTTPError (http_error_msg r)).
Proof.
  intros Hw Hst. unfold get_tfl_journey, bind, requests_get, lift, raise_for_status.
  rewrite Hw.
  replace (400 <=? status_code r) with true by (symmetry; apply Z.leb_le; lia).
  replace (status_code r <? 600) with true by (symmetry; apply Z.ltb_lt; lia).
  reflexivity.
Qed.

Lemma startswith_app (p x : string) : startswith p (p ++ x) = true.
Proof. apply startswith_iff. now exists x. Qed.

Lemma http_error_msg_status (r : response) :
  400 <= status_code r < 600 ->
  startswith (str_of_int (status_code r)) (http_error_msg r) = true.
Proof.
  intros H. unfold http_error_msg.
  destruct (Z.ltb_spec (status_code r) 500).
  - replace (400 <=? status_code r) with true by (symmetry; apply Z.leb_le; lia).
    apply startswith_app.
  - rewrite andb_false_r.
    replace (500 <=? status_code r) with true by (symmetry; apply Z.leb_le; lia).
    replace (status_code r <? 600) with true by (symmetry; apply Z.ltb_lt; lia).
    apply startswith_app.
Qed.

Lemma catch_bind (A : Type) (m : M rt A) (k : A -> M rt unit) (s : state rt) :
  catch rt (bind rt m k) s
  = match m s with
    | (s', inl e) => emit rt (Error (handler_msg e)) s'
    | (s', inr a) => catch rt (k a) s'
    end.
Proof. unfold catch, bind. destruct (m s) as [s' [e|a]]; reflexivity. Qed.

Lemma quiet_catch (m : M rt unit) : quiet m -> quiet (catch rt m).
Proof.
  intros Hm s. unfold catch. destruct (Hm s) as [evs [E R]].
  destruct (m s) as [s' [e|[]]]; simpl in E; subst s'.
  - exists (evs ++ [Error (handler_msg e)])%list. simpl.
    rewrite app_assoc. split; [reflexivity|].
    now rewrite requests_of_app, R.
  - now exists evs.
Qed.

Lemma calculate_nonempty (from_input to_input : string) :
  from_input <> "" -> to_input <> "" ->
  calculate rt w from_input to_input (init rt)
  = catch rt (try_body rt w from_input to_input)
      {| calls := 0; out := [Spinner spinner_text] |}.
Proof.
  intros Hf Ht. unfold calculate.
  destruct from_input; [contradiction|]. destruct to_input; [contradiction|].
  reflexivity.
Qed.

(** The run with both fields filled in, call by call. *)
Lemma run_steps (from_input to_input : string) :
  catch rt (try_body rt w from_input to_input)
    {| calls := 0; out := [Spinner spinner_text] |}
  = match located rt w 0 from_input with
    | inl e =>
        ({| calls := 1;
            out := [Spinner spinner_text; HttpGet (geocode_request from_input);
                    Error (handler_msg e)] |}, inr tt)
    | inr (from_lat, from_lng, _) =>
        match located rt w 1 to_input with
        | inl e =>
            ({| calls := 2;
                out := [Spinner spinner_text; HttpGet (geocode_request from_input);
                        HttpGet (geocode_request to_input);
                        Error (handler_msg e)] |}, inr tt)
        | inr (to_lat, to_lng, _) =>
            let req := tfl_request rt from_lat from_lng to_lat to_lng in
            match
              snd (get_tfl_journey rt w from_lat from_lng to_lat to_lng
                     {| calls := 2;
                        out := [Spinner spinner_text;
                                HttpGet (geocode_request from_input);
                                HttpGet (geocode_request to_input)] |})
            with
            | inl e =>
                ({| calls := 3;
                    out := [Spinner spinner_text; HttpGet (geocode_request from_input);
                            HttpGet (geocode_request to_input); HttpGet req;
                            Error (handler_msg e)] |}, inr tt)
            | inr data =>
                catch rt (present_result rt from_input to_input
                            from_lat from_lng to_lat to_lng data)
                  {| calls := 3;
                     out := [Spinner spinner_text; HttpGet (geocode_request from_input);
                             HttpGet (geocode_request to_input); HttpGet req] |}
            end
        end
    end.
Proof.
  unfold try_body. rewrite catch_bind, geocode_eq, geocode_snd. simpl.
  destruct (located rt w 0 from_input) as [e|[[from_lat from_lng] n1]];
    [reflexivity|].
  rewrite catch_bind, geocode_eq, geocode_snd. simpl.
  destruct (located rt w 1 to_input) as [e|[[to_lat to_lng] n2]];
    [reflexivity|].
  rewrite catch_bind, get_tfl_journey_eq. simpl.
  destruct (snd (get_tfl_journey rt w from_lat from_lng to_lat to_lng _));
    reflexivity.
Qed.

(** C7: when one of the two fields is empty the run shows the warning
    and does nothing else: no HTTP call is made. *)
Theorem missing_input_warns (from_input to_input : string) :
  from_input = "" \/ to_input = "" ->
  calculate rt w from_input to_input (init rt)
  = ({| calls := 0; out := [Warning "Please enter both locations."] |}, inr tt)
  /\ requests_of (trace rt w from_input to_input) = [].
Proof.
  intros H. unfold trace, calculate.
  assert (E : (negb (truthy (JStr from_input)) || negb (truthy (JStr to_input)))%bool
              = true).
  { destruct H as [-> | ->]; simpl; [reflexivity | apply orb_true_r]. }
  rewrite E. split; reflexivity.
Qed.

(** C8, as the program has it: when a service answers a call of the run
    with a status from 400 to 599, the run stops there; the error is shown
    in the result area as "API error: " followed by the message of the
    HTTP error, which starts with the status; no later call is made and
    no exception leaves the handler. *)
Theorem http_error_reported (from_input to_input : string) (n : nat)
    (req : request) (r : response) :
  from_input <> "" -> to_input <> "" ->
  nth_error (requests_of (trace rt w from_input to_input)) n = Some req ->
  w n req = Got r ->
  400 <= status_code r < 600 ->
  exists before,
    calculate rt w from_input to_input (init rt)
    = ({| calls := S n;
          out := (before ++ [HttpGet req;
                             Error ("API error: " ++ http_error_msg r)])%list |},
       inr tt)
    /\ List.length (requests_of before) = n
    /\ startswith (str_of_int (status_code r)) (http_error_msg r) = true
    /\ (forall s, snd (calculate rt w from_input to_input s) = inr tt).
Proof.
  intros Hf Ht Hn Hw Hst. unfold trace in Hn.
  pose proof (calculate_returns from_input to_input) as Hret.
  rewrite calculate_nonempty in * by assumption. rewrite run_steps in *.
  pose proof (http_error_msg_status r Hst) as Hmsg.
  destruct (located rt w 0 from_input) as [e|[[from_lat from_lng] n1]] eqn:L0.
  { destruct n as [|[|n]]; try discriminate.
    injection Hn as <-.
    rewrite (located_http_error 0 _ r Hw Hst) in L0. injection L0 as <-.
    exists [Spinner spinner_text]. repeat split; assumption. }
  destruct (located rt w 1 to_input) as [e|[[to_lat to_lng] n2]] eqn:L1.
  { destruct n as [|[|[|n]]]; try discriminate; injection Hn as <-.
    - rewrite (located_http_error 0 _ r Hw Hst) in L0. discriminate.
    - rewrite (located_http_error 1 _ r Hw Hst) in L1. injection L1 as <-.
      exists [Spinner spinner_text; HttpGet (geocode_request from_input)].
      repeat split; assumption. }
  cbv zeta in *.
  match type of Hn with
  | context [get_tfl_journey rt w _ _ _ _ ?s2] => set (s2' := s2) in *
  end.
  destruct (snd (get_tfl_journey rt w from_lat from_lng to_lat to_lng s2'))
    as [e|data] eqn:T.
  { destruct n as [|[|[|[|n]]]]; try discriminate; injection Hn as <-.
    - rewrite (located_http_error 0 _ r Hw Hst) in L0. discriminate.
    - rewrite (located_http_error 1 _ r Hw Hst) in L1. discriminate.
    - rewrite (tfl_http_error _ _ _ _ s2' r Hw Hst) in T. injection T as <-.
      exists [Spinner spinner_text; HttpGet (geocode_request from_input);
              HttpGet (geocode_request to_input)].
      repeat split; assumption. }
  exfalso.
  match type of Hn with
  | context [catch rt ?m ?s3] =>
      destruct (quiet_catch m (quiet_present_result _ _ _ _ _ _ _) s3)
        as [evs [E R]]
  end.
  rewrite E in Hn. simpl in Hn. rewrite ?requests_of_app, R in Hn.
  destruct n as [|[|[|[|n]]]]; try discriminate; injection Hn as <-.
  - rewrite (located_http_error 0 _ r Hw Hst) in L0. discriminate.
  - rewrite (located_http_error 1 _ r Hw Hst) in L1. discriminate.
  - rewrite (tfl_http_error _ _ _ _ s2' r Hw Hst) in T. discriminate.
Qed.

(** *** One leg *)

Lemma leg_mode_name (fields : list (string * json)) (name : string) :
  absent_or_object fields "mode" ->
  leg_field fields "mode" "name" = Some (JStr name)
  \/ (leg_field fields "mode" "name" = None /\ name = "walking") ->
  leg_mode (JObj fields) = inr (JStr name).
Proof.
  unfold absent_or_object, leg_field, leg_mode, py_get.
  intros [E | [o E]] Hn; rewrite E in *; simpl.
  - destruct Hn as [Hn | [_ ->]]; [discriminate | reflexivity].
  - destruct Hn as [-> | [-> ->]]; reflexivity.
Qed.

Lemma leg_summary_text (fields : list (string * json)) (mode : json) :
  absent_or_object fields "instruction" ->
  leg_summary (JObj fields) mode
  = match text_of (leg_field fields "instruction" "summary") with
    | Some v => inr v
    | None =>
        match text_of (leg_field fields "instruction" "detailed") with
        | Some u => inr u
        | None => table_get MODE_LABELS mode mode
        end
    end.
Proof.
  unfold absent_or_object, leg_field, leg_summary, py_get, text_of.
  intros [E | [o E]]; rewrite E; simpl; [reflexivity|].
  destruct (assoc "summary" o) as [v|]; simpl.
  - destruct (truthy v); [reflexivity|].
    destruct (assoc "detailed" o) as [u|]; simpl; [|reflexivity].
    destruct (truthy u); reflexivity.
  - destruct (assoc "detailed" o) as [u|]; simpl; [|reflexivity].
    destruct (truthy u); reflexivity.
Qed.

Lemma table_get_label (name : string) :
  table_get MODE_LABELS (JStr name) (JStr name) = inr (JStr (label_of name)).
Proof. unfold table_get, label_of. destruct (assoc name MODE_LABELS); reflexivity. Qed.

Lemma table_get_colour (name : string) :
  table_get MODE_COLOURS (JStr name) (JStr "#374151") = inr (JStr (colour_of name)).
Proof. unfold table_get, colour_of. destruct (assoc name MODE_COLOURS); reflexivity. Qed.

(** The step drawn for a leg whose mode name is a string. *)
Lemma render_leg_named (fields : list (string * json)) (name : string) :
  absent_or_object fields "instruction" ->
  leg_mode (JObj fields) = inr (JStr name) ->
  exists text,
    render_leg rt (JObj fields)
    = inr (leg_html (colour_of name) (label_of name) (py_str (repr rt) text))
    /\ text
       = match text_of (leg_field fields "instruction" "summary") with
         | Some v => v
         | None =>
             match text_of (leg_field fields "instruction" "detailed") with
             | Some u => u
             | None => JStr (label_of name)
             end
         end.
Proof.
  intros Hi Hm. unfold render_leg.
  rewrite Hm, (leg_summary_text fields (JStr name) Hi).
  rewrite table_get_label, table_get_colour.
  destruct (text_of (leg_field fields "instruction" "summary")) as [v|];
    [eexists; split; reflexivity|].
  destruct (text_of (leg_field fields "instruction" "detailed")) as [u|];
    eexists; split; reflexivity.
Qed.

Lemma text_of_truthy (f : option json) (v : json) :
  f = Some v -> truthy v = true -> text_of f = Some v.
Proof. intros -> H. simpl. now rewrite H. Qed.

Lemma text_of_none (f : option json) : gives_no_text f -> text_of f = None.
Proof. destruct f as [v|]; simpl; [intros ->|]; reflexivity. Qed.

Lemma text_of_drop_empty (f : option json) : text_of (drop_empty f) = text_of f.
Proof. destruct f as [[| | | |[|c t]| |]|]; reflexivity. Qed.

(** *** The answer of the journey service *)

Lemma tfl_ok (a b c d : float rt) (s : state rt) (data : json) :
  snd (get_tfl_journey rt w a b c d s) = inr data ->
  exists r, w (calls s) (tfl_request rt a b c d) = Got r /\ body r = inr data.
Proof.
  unfold get_tfl_journey, bind, requests_get, lift, resp_json.
  destruct (w (calls s) (tfl_request rt a b c d)) as [msg|r]; [discriminate|].
  destruct (raise_for_status r) as [e|[]]; [discriminate|].
  simpl. destruct (body r) as [msg|v] eqn:Hb; [discriminate|].
  intros H. injection H as <-. now exists r.
Qed.

Lemma tfl_data (a b c d : float rt) (s : state rt) (r : response) (data : json) :
  w (calls s) (tfl_request rt a b c d) = Got r ->
  raise_for_status r = inr tt ->
  body r = inr data ->
  snd (get_tfl_journey rt w a b c d s) = inr data.
Proof.
  intros Hw Hst Hb. unfold get_tfl_journey, bind, requests_get, lift, resp_json.
  now rewrite Hw, Hst, Hb.
Qed.

(** Either the answer has a non-empty list of journeys, or the run ends
    with an error message and nothing drawn. *)
Lemma present_result_cases (f t : string) (a b c d : float rt) (data : json)
    (s : state rt) :
  (exists fields j rest,
      data = JObj fields /\ assoc "journeys" fields = Some (JArr (j :: rest)))
  \/ (exists msg,
        catch rt (present_result rt f t a b c d data) s
        = ({| calls := calls s; out := (out s ++ [Error msg])%list |}, inr tt)).
Proof.
  destruct data as [| |z|x|str|l|fields];
    try (right; eexists; reflexivity).
  unfold present_result, catch, bind, lift, py_get, py_getitem.
  destruct (assoc "journeys" fields) as [v|] eqn:Ej; [|right; eexists; reflexivity].
  destruct v as [|[]|z|[]|[|ch str]|[|j rest]|[|kv kvs]];
    try (right; eexists; reflexivity).
  - right. unfold truthy. destruct (z =? 0); eexists; reflexivity.
  - left. now exists fields, j, rest.
Qed.

(** C4: when both addresses are resolved and the journey service answers
    with an object whose "journeys" entry is missing or is the empty list,
    the run reports "no tube journey found" and draws nothing: no metric,
    no step, no map.  And whatever the world does, something is drawn for
    a journey only when the answer to the third call holds a list of
    journeys with a first entry. *)
Theorem no_journey_found (from_input to_input : string) :
  (forall from_lat from_lng n1 to_lat to_lng n2 r fields,
      from_input <> "" -> to_input <> "" ->
      located rt w 0 from_input = inr (from_lat, from_lng, n1) ->
      located rt w 1 to_input = inr (to_lat, to_lng, n2) ->
      w 2%nat (tfl_request rt from_lat from_lng to_lat to_lng) = Got r ->
      raise_for_status r = inr tt ->
      body r = inr (JObj fields) ->
      assoc "journeys" fields = None \/ assoc "journeys" fields = Some (JArr []) ->
      calculate rt w from_input to_input (init rt)
      = ({| calls := 3;
            out := [Spinner spinner_text;
                    HttpGet (geocode_request from_input);
                    HttpGet (geocode_request to_input);
                    HttpGet (tfl_request rt from_lat from_lng to_lat to_lng);
                    Error no_journey_msg] |}, inr tt))
  /\ (forall e,
        In e (trace rt w from_input to_input) -> is_rendering e = true ->
        exists req r fields journey others,
          nth_error (requests_of (trace rt w from_input to_input)) 2 = Some req
          /\ w 2%nat req = Got r
          /\ body r = inr (JObj fields)
          /\ assoc "journeys" fields = Some (JArr (journey :: others))).
Proof.
  split.
  - intros from_lat from_lng n1 to_lat to_lng n2 r fields Hf Ht L0 L1 Hw Hst Hb Hj.
    rewrite calculate_nonempty, run_steps, L0, L1 by assumption. cbv zeta.
    rewrite (tfl_data _ _ _ _ _ r (JObj fields)) by assumption.
    unfold present_result, catch, bind, lift, py_get.
    destruct Hj as [-> | ->]; reflexivity.
  - intros e Hin Hr. unfold trace in *.
    destruct (string_dec from_input "") as [->|Hf].
    { simpl in Hin. destruct Hin as [<-|[]]. discriminate. }
    destruct (string_dec to_input "") as [->|Ht].
    { unfold calculate in Hin. rewrite orb_true_r in Hin.
      simpl in Hin. destruct Hin as [<-|[]]. discriminate. }
    rewrite calculate_nonempty, run_steps in * by assumption.
    destruct (located rt w 0 from_input) as [e0|[[from_lat from_lng] n1]].
    { simpl in Hin. exfalso.
      repeat (destruct Hin as [<-|Hin]; [discriminate|]). exact Hin. }
    destruct (located rt w 1 to_input) as [e1|[[to_lat to_lng] n2]].
    { simpl in Hin. exfalso.
      repeat (destruct Hin as [<-|Hin]; [discriminate|]). exact Hin. }
    cbv zeta in *.
    match type of Hin with
    | context [get_tfl_journey rt w _ _ _ _ ?s2] => set (s2' := s2) in *
    end.
    destruct (snd (get_tfl_journey rt w from_lat from_lng to_lat to_lng s2'))
      as [e2|data] eqn:T.
    { simpl in Hin. exfalso.
      repeat (destruct Hin as [<-|Hin]; [discriminate|]). exact Hin. }
    destruct (tfl_ok _ _ _ _ _ _ T) as [r [Hw Hb]].
    match type of Hin with
    | context [catch rt ?m ?s3] =>
        destruct (quiet_catch m (quiet_present_result _ _ _ _ _ _ _) s3)
          as [evs [Q R]];
        destruct (present_result_cases from_input to_input
                    from_lat from_lng to_lat to_lng data s3)
          as [[fields [j [rest [Hd Hj]]]] | [msg E]]
    end.
    + subst data.
      exists (tfl_request rt from_lat from_lng to_lat to_lng), r, fields, j, rest.
      rewrite Q. simpl. repeat split; assumption.
    + rewrite E in Hin. simpl in Hin. exfalso.
      repeat (destruct Hin as [<-|Hin]; [discriminate|]). exact Hin.
Qed.

Lemma render_legs_ok (legs : list json) (htmls : list string) (s : state rt) :
  Forall2 (fun leg html => render_leg rt leg = inr html) legs htmls ->
  render_legs rt legs s
  = ({| calls := calls s;
        out := (out s ++ map (fun html => Markdown html true) htmls)%list |},
     inr tt).
Proof.
  intros H. revert s. induction H as [|leg html legs htmls Hleg _ IH]; intros s.
  - simpl. unfold ret. now rewrite app_nil_r; destruct s.
  - simpl. unfold bind, lift. rewrite Hleg. simpl.
    rewrite IH. simpl. now rewrite <- app_assoc.
Qed.

(** C5: when both addresses are resolved and the journey service answers
    with a non-empty list of journeys, what is drawn is drawn from the
    first entry alone; when that entry has an integer duration and a list
    of legs that all render, the run shows the formatted duration of the
    entry and one step per leg of the entry, in the order of its list,
    then the caption; the map follows, unless the map code raises, in
    which case the error message follows. *)
Theorem first_journey_rendered (from_input to_input : string)
    (from_lat from_lng to_lat to_lng : float rt) (n1 n2 : json)
    (r : response) (fields : list (string * json))
    (journey : json) (others : list json) :
  from_input <> "" -> to_input <> "" ->
  located rt w 0 from_input = inr (from_lat, from_lng, n1) ->
  located rt w 1 to_input = inr (to_lat, to_lng, n2) ->
  w 2%nat (tfl_request rt from_lat from_lng to_lat to_lng) = Got r ->
  raise_for_status r = inr tt ->
  body r = inr (JObj fields) ->
  assoc "journeys" fields = Some (JArr (journey :: others)) ->
  let called :=
    [Spinner spinner_text;
     HttpGet (geocode_request from_input);
     HttpGet (geocode_request to_input);
     HttpGet (tfl_request rt from_lat from_lng to_lat to_lng)] in
  calculate rt w from_input to_input (init rt)
  = catch rt (render_journey rt from_input to_input
                from_lat from_lng to_lat to_lng journey)
      {| calls := 3; out := called |}
  /\ (forall jf d legs htmls,
        journey = JObj jf ->
        assoc "duration" jf = Some (JInt d) ->
        assoc "legs" jf = Some (JArr legs) ->
        Forall2 (fun leg html => render_leg rt leg = inr html) legs htmls ->
        let panel :=
          (called
           ++ [Metric "Fastest Journey Time" (format_duration d);
               Markdown ("**From:** " ++ from_input ++ "  " ++ nl
                         ++ "**To:** " ++ to_input) false;
               Markdown "**Steps**" false]
           ++ map (fun html => Markdown html true) htmls
           ++ [Caption "Journey data © Transport for London"])%list in
        let m := journey_map rt from_input to_input
                   from_lat from_lng to_lat to_lng in
        (folium_raises rt m = None ->
         trace rt w from_input to_input = (panel ++ [StFolium m])%list)
        /\ (forall e, folium_raises rt m = Some e ->
              trace rt w from_input to_input
              = (panel ++ [Error (handler_msg e)])%list)).
Proof.
  intros Hf Ht L0 L1 Hw Hst Hb Hj called.
  assert (E : calculate rt w from_input to_input (init rt)
              = catch rt (render_journey rt from_input to_input
                            from_lat from_lng to_lat to_lng journey)
                  {| calls := 3; out := called |}).
  { rewrite calculate_nonempty, run_steps, L0, L1 by assumption. cbv zeta.
    rewrite (tfl_data _ _ _ _ _ r (JObj fields)) by assumption.
    unfold present_result, catch, bind, lift, py_get, py_getitem.
    rewrite Hj. reflexivity. }
  split; [exact E|].
  intros jf d legs htmls -> Hd Hl Hlegs panel m. unfold trace. rewrite E.
  unfold catch, render_journey, bind, lift, py_getitem.
  rewrite Hd, Hl. simpl.
  rewrite (render_legs_ok legs htmls _ Hlegs).
  unfold draw_map, emit, raise. fold m. simpl.
  split.
  - intros ->. simpl. subst panel called. simpl.
    now rewrite <- !app_assoc.
  - intros e ->. simpl. subst panel called. simpl.
    now rewrite <- !app_assoc.
Qed.

(** C6, as the program has it: for a leg whose mode and instruction are
    absent or objects and whose mode name is a string (walking when there
    is none), the text of the step is the summary when that field gives
    text (present and not empty), otherwise the detailed instruction when
    that one gives text, otherwise the label of the mode, which is the
    entry of the table or the mode name itself when the table has none;
    and the steps come out in the order of the list of legs. *)
Theorem leg_instruction_shown (fields : list (string * json)) (name : string) :
  absent_or_object fields "mode" ->
  absent_or_object fields "instruction" ->
  leg_field fields "mode" "name" = Some (JStr name)
  \/ (leg_field fields "mode" "name" = None /\ name = "walking") ->
  (exists text,
      render_leg rt (JObj fields)
      = inr (leg_html (colour_of name) (label_of name) text)
      /\ (forall v, leg_field fields "instruction" "summary" = Some v ->
                    truthy v = true -> text = py_str (repr rt) v)
      /\ (gives_no_text (leg_field fields "instruction" "summary") ->
          forall u, leg_field fields "instruction" "detailed" = Some u ->
                    truthy u = true -> text = py_str (repr rt) u)
      /\ (gives_no_text (leg_field fields "instruction" "summary") ->
          gives_no_text (leg_field fields "instruction" "detailed") ->
          text = label_of name))
  /\ (label_of "tube" = "Tube" /\ label_of "walking" = "Walk"
      /\ label_of "bus" = "Bus" /\ label_of "national-rail" = "Rail"
      /\ label_of "overground" = "Overground"
      /\ label_of "elizabeth-line" = "Elizabeth" /\ label_of "dlr" = "DLR"
      /\ (assoc name MODE_LABELS = None -> label_of name = name))
  /\ (forall legs htmls s,
        Forall2 (fun leg html => render_leg rt leg = inr html) legs htmls ->
        out (fst (render_legs rt legs s))
        = (out s ++ map (fun html => Markdown html true) htmls)%list).
Proof.
  intros Hm Hi Hn. split; [|split].
  - destruct (render_leg_named fields name Hi (leg_mode_name fields name Hm Hn))
      as [text [E T]].
    exists (py_str (repr rt) text). split; [exact E|]. subst text. repeat split.
    + intros v Hv Tv. now rewrite (text_of_truthy _ v Hv Tv).
    + intros Hs u Hu Tu.
      now rewrite (text_of_none _ Hs), (text_of_truthy _ u Hu Tu).
    + intros Hs Hd. now rewrite (text_of_none _ Hs), (text_of_none _ Hd).
  - repeat split. intros H. unfold label_of. now rewrite H.
  - intros legs htmls s H. now rewrite (render_legs_ok legs htmls s H).
Qed.

(** C9: a leg without a mode, or whose mode object has no name, is drawn
    as a walking leg: the badge is the Walk badge, and the text is "Walk"
    when the instruction gives none. *)
Theorem missing_mode_is_walking (fields : list (string * json)) :
  assoc "mode" fields = None
  \/ (exists mf, assoc "mode" fields = Some (JObj mf) /\ assoc "name" mf = None) ->
  absent_or_object fields "instruction" ->
  leg_mode (JObj fields) = inr (JStr "walking")
  /\ exists text,
      render_leg rt (JObj fields) = inr (leg_html "#6b7280" "Walk" text)
      /\ (gives_no_text (leg_field fields "instruction" "summary") ->
          gives_no_text (leg_field fields "instruction" "detailed") ->
          text = "Walk").
Proof.
  intros Hm Hi.
  assert (E : leg_mode (JObj fields) = inr (JStr "walking")).
  { unfold leg_mode, py_get. destruct Hm as [-> | [mf [-> Hn]]]; simpl;
      [reflexivity | now rewrite Hn]. }
  split; [exact E|].
  destruct (render_leg_named fields "walking" Hi E) as [text [R T]].
  exists (py_str (repr rt) text). split; [exact R|].
  intros Hs Hd. subst text.
  now rewrite (text_of_none _ Hs), (text_of_none _ Hd).
Qed.

(** C10: an empty summary or detailed instruction counts as a missing
    one: two legs that differ only in that draw the same step; and when
    the fields are strings, the text of the step is the first non-empty
    one of summary, detailed and the label of the mode. *)
Theorem empty_instruction_is_absent :
  (forall fields fields',
      absent_or_object fields "instruction" ->
      absent_or_object fields' "instruction" ->
      leg_mode (JObj fields) = leg_mode (JObj fields') ->
      drop_empty (leg_field fields "instruction" "summary")
      = drop_empty (leg_field fields' "instruction" "summary") ->
      drop_empty (leg_field fields "instruction" "detailed")
      = drop_empty (leg_field fields' "instruction" "detailed") ->
      render_leg rt (JObj fields) = render_leg rt (JObj fields'))
  /\ (forall fields name summary detailed,
        absent_or_object fields "instruction" ->
        leg_mode (JObj fields) = inr (JStr name) ->
        leg_field fields "instruction" "summary" = option_map JStr summary ->
        leg_field fields "instruction" "detailed" = option_map JStr detailed ->
        render_leg rt (JObj fields)
        = inr (leg_html (colour_of name) (label_of name)
                 (first_nonempty [summary; detailed; Some (label_of name)]
                    (label_of name)))).
Proof.
  split.
  - intros fields fields' Hi Hi' Hm Hs Hd. unfold render_leg.
    rewrite Hm. destruct (leg_mode (JObj fields')) as [e|mode]; [reflexivity|].
    rewrite (leg_summary_text fields mode Hi), (leg_summary_text fields' mode Hi').
    rewrite <- (text_of_drop_empty (leg_field fields "instruction" "summary")).
    rewrite <- (text_of_drop_empty (leg_field fields "instruction" "detailed")).
    rewrite Hs, Hd, !text_of_drop_empty. reflexivity.
  - intros fields name summary detailed Hi Hm Hs Hd.
    destruct (render_leg_named fields name Hi Hm) as [text [R T]].
    rewrite R, T, Hs, Hd. do 2 f_equal.
    destruct summary as [[|c t]|], detailed as [[|c' t']|]; simpl;
      try reflexivity; destruct (label_of name); reflexivity.
Qed.

End Properties.

Lemma geocode_sends_query_witness :
  exists req,
    out (fst (geocode text_rt world_45 "Baker Street" (init text_rt)))
    = [HttpGet req]
    /\ assoc "q" (params req) = Some "Baker Street, London, UK".
Proof.
  destruct (geocode_sends_query text_rt world_45 "Baker Street" (init text_rt))
    as [req [H1 [_ [_ [_ [H2 _]]]]]].
  exists req. split; [exact H1|].
  apply H2. rewrite <- london_test_iff. vm_compute. discriminate.
Defined.

Lemma geocode_not_found_witness :
  snd (geocode text_rt world_nowhere "Atlantis" (init text_rt))
  = inl (Raise ValueError
           ("Could not find location: " ++ dq ++ "Atlantis" ++ dq
            ++ ". Try a more specific address.")).
Proof.
  apply (proj1 (geocode_not_found text_rt world_nowhere "Atlantis" (init text_rt)
                  (ok_response (JArr [])) eq_refl eq_refl eq_refl)).
Defined.

Lemma missing_input_warns_witness :
  calculate text_rt world_45 "Baker Street" "" (init text_rt)
  = ({| calls := 0; out := [Warning "Please enter both locations."] |}, inr tt)
  /\ requests_of (trace text_rt world_45 "Baker Street" "") = [].
Proof.
  apply (missing_input_warns text_rt world_45 "Baker Street" "").
  right. reflexivity.
Defined.

Lemma http_error_reported_witness :
  exists before,
    calculate text_rt (world_status 404 "Not Found") "Baker Street" "Canary Wharf"
      (init text_rt)
    = ({| calls := 1;
          out := (before
                  ++ [HttpGet (geocode_request "Baker Street");
                      Error ("API error: "
                             ++ "404 Client Error: Not Found for url: "
                             ++ "https://nominatim.openstreetmap.org/search")])%list |},
       inr tt)
    /\ List.length (requests_of before) = 0%nat.
Proof.
  destruct (http_error_reported text_rt (world_status 404 "Not Found")
              "Baker Street" "Canary Wharf" 0 (geocode_request "Baker Street")
              {| status_code := 404; reason := "Not Found";
                 resp_url := "https://nominatim.openstreetmap.org/search";
                 body := inl "Expecting value: line 1 column 1 (char 0)" |})
    as [before [H1 [H2 _]]];
    [discriminate | discriminate | reflexivity | reflexivity | simpl; lia |].
  exists before. split; [exact H1 | exact H2].
Defined.

(** A status outside 200-299 that is not an HTTP error for the program:
    the service answers 304 with no JSON body.  The run shows the message
    of the decoding error; it is not an "API error" and does not carry the
    status. *)
Lemma status_304_not_reported :
  exists req r,
    nth_error (requests_of (trace text_rt (world_status 304 "Not Modified")
                              "Baker Street" "Canary Wharf")) 0 = Some req
    /\ world_status 304 "Not Modified" 0%nat req = Got r
    /\ ~ (200 <= status_code r < 300)
    /\ trace text_rt (world_status 304 "Not Modified") "Baker Street" "Canary Wharf"
       = [Spinner spinner_text; HttpGet req;
          Error "Expecting value: line 1 column 1 (char 0)"]
    /\ str_in "304" "Expecting value: line 1 column 1 (char 0)" = false
    /\ startswith "API error" "Expecting value: line 1 column 1 (char 0)" = false.
Proof.
  eexists. eexists. split; [reflexivity|]. split; [reflexivity|].
  split; [simpl; lia|]. repeat split.
Qed.

Lemma no_journey_found_witness :
  calculate text_rt world_empty "Baker Street" "Canary Wharf" (init text_rt)
  = ({| calls := 3;
        out := [Spinner spinner_text;
                HttpGet (geocode_request "Baker Street");
                HttpGet (geocode_request "Canary Wharf");
                HttpGet (tfl_request text_rt "51.5226" "-0.1571" "51.5054" "-0.0235");
                Error no_journey_msg] |}, inr tt).
Proof.
  apply (proj1 (no_journey_found text_rt world_empty "Baker Street" "Canary Wharf")
           "51.5226" "-0.1571" (JStr "Baker Street, London")
           "51.5054" "-0.0235" (JStr "Canary Wharf, London")
           (ok_response (JObj [("journeys", JArr [])]))
           [("journeys", JArr [])]);
    try reflexivity; try discriminate.
  right. reflexivity.
Defined.

(** The scenario of the specification, end to end. *)
Lemma first_journey_rendered_witness :
  trace text_rt world_45 "Baker Street" "Canary Wharf"
  = [Spinner spinner_text;
     HttpGet (geocode_request "Baker Street");
     HttpGet (geocode_request "Canary Wharf");
     HttpGet (tfl_request text_rt "51.5226" "-0.1571" "51.5054" "-0.0235");
     Metric "Fastest Journey Time" "45 min";
     Markdown ("**From:** Baker Street  " ++ nl ++ "**To:** Canary Wharf") false;
     Markdown "**Steps**" false;
     Markdown (leg_html "#6b7280" "Walk" "Walk to Baker Street Station") true;
     Markdown (leg_html "#0019a8" "Tube" "Jubilee line to Canary Wharf") true;
     Caption "Journey data © Transport for London";
     StFolium (journey_map text_rt "Baker Street" "Canary Wharf"
                 "51.5226" "-0.1571" "51.5054" "-0.0235")].
Proof.
  apply (proj1
           (proj2 (first_journey_rendered text_rt world_45
                     "Baker Street" "Canary Wharf"
                     "51.5226" "-0.1571" "51.5054" "-0.0235"
                     (JStr "Baker Street, London") (JStr "Canary Wharf, London")
                     (ok_response (JObj [("journeys", JArr [journey_45])]))
                     [("journeys", JArr [journey_45])] journey_45 []
                     ltac:(discriminate) ltac:(discriminate)
                     eq_refl eq_refl eq_refl eq_refl eq_refl eq_refl)
              [("duration", JInt 45); ("legs", JArr [walk_leg; tube_leg])]
              45 [walk_leg; tube_leg]
              [leg_html "#6b7280" "Walk" "Walk to Baker Street Station";
               leg_html "#0019a8" "Tube" "Jubilee line to Canary Wharf"]
              eq_refl eq_refl eq_refl
              ltac:(repeat constructor))
           eq_refl).
Defined.

Lemma leg_instruction_shown_witness :
  exists text,
    render_leg text_rt leg_detailed_only
    = inr (leg_html (colour_of "walking") (label_of "walking") text)
    /\ text = "Walk to the platform".
Proof.
  destruct (leg_instruction_shown text_rt
              [("mode", JObj [("name", JStr "walking")]);
               ("instruction", JObj [("detailed", JStr "Walk to the platform")])]
              "walking")
    as [[text [R [_ [D _]]]] _].
  - right. eexists. reflexivity.
  - right. eexists. reflexivity.
  - left. reflexivity.
  - exists text. split; [exact R|].
    apply (D I (JStr "Walk to the platform")); reflexivity.
Defined.

(** An empty summary is present and is not what the step shows. *)
Lemma empty_summary_not_shown :
  leg_field [("mode", JObj [("name", JStr "walking")]);
             ("instruction", JObj [("summary", JStr "");
                                   ("detailed", JStr "Walk to the platform")])]
    "instruction" "summary" = Some (JStr "")
  /\ render_leg text_rt leg_empty_summary
     = inr (leg_html "#6b7280" "Walk" "Walk to the platform")
  /\ render_leg text_rt leg_empty_summary
     <> inr (leg_html "#6b7280" "Walk" "").
Proof. repeat split. discriminate. Qed.

Lemma missing_mode_is_walking_witness :
  leg_mode leg_bare = inr (JStr "walking")
  /\ exists text,
      render_leg text_rt leg_bare = inr (leg_html "#6b7280" "Walk" text)
      /\ text = "Walk".
Proof.
  destruct (missing_mode_is_walking text_rt [("instruction", JObj [])])
    as [M [text [R T]]].
  - left. reflexivity.
  - right. eexists. reflexivity.
  - split; [exact M|]. exists text. split; [exact R|]. apply T; exact I.
Defined.

Lemma empty_instruction_is_absent_witness :
  render_leg text_rt leg_empty_summary = render_leg text_rt leg_detailed_only.
Proof.
  apply (proj1 (empty_instruction_is_absent text_rt)
           [("mode", JObj [("name", JStr "walking")]);
            ("instruction", JObj [("summary", JStr "");
                                  ("detailed", JStr "Walk to the platform")])]
           [("mode", JObj [("name", JStr "walking")]);
            ("instruction", JObj [("detailed", JStr "Walk to the platform")])]);
    try reflexivity; right; eexists; reflexivity.
Defined.

(** * Further properties *)

(** ** [format_duration] shows different durations differently *)

Lemma numeric_uint (d : Decimal.uint) : numeric (NilEmpty.string_of_uint d) = true.
Proof. induction d; simpl; try rewrite IHd; reflexivity. Qed.

Lemma numeric_str_of_int (z : Z) : numeric (str_of_int z) = true.
Proof.
  unfold str_of_int, NilZero.string_of_int, NilZero.string_of_uint.
  destruct (Z.to_int z) as [d|d]; destruct d; simpl;
    try rewrite numeric_uint; reflexivity.
Qed.

Lemma str_of_int_inj (a b : Z) : str_of_int a = str_of_int b -> a = b.
Proof.
  unfold str_of_int. intros H.
  assert (N : forall z, Z.to_int z <> Decimal.Pos Decimal.Nil
                        /\ Z.to_int z <> Decimal.Neg Decimal.Nil).
  { intros [|p|p]; simpl; split; try discriminate; intros E; injection E;
      apply Unsigned.to_uint_nonnil. }
  assert (E : Some (Z.to_int a) = Some (Z.to_int b)).
  { rewrite <- (NilZero.isi (Z.to_int a)), <- (NilZero.isi (Z.to_int b));
      try apply N. now rewrite H. }
  injection E as E.
  rewrite <- (DecimalZ.of_to a), <- (DecimalZ.of_to b). now rewrite E.
Qed.

(** Two texts that start with a number and go on with another character
    agree piece by piece. *)
Lemma numeric_prefix_unique (x y : string) (c1 c2 : ascii) (r1 r2 : string) :
  numeric x = true -> numeric y = true ->
  numeric_char c1 = false -> numeric_char c2 = false ->
  x ++ String c1 r1 = y ++ String c2 r2 ->
  x = y /\ c1 = c2 /\ r1 = r2.
Proof.
  revert y; induction x as [|a x IH]; intros y Hx Hy H1 H2 E.
  - destruct y as [|b y]; simpl in E.
    + injection E as -> ->. now repeat split.
    + injection E as -> _. simpl in Hy. apply andb_true_iff in Hy.
      destruct Hy as [Hb _]. congruence.
  - simpl in Hx. apply andb_true_iff in Hx. destruct Hx as [Ha Hx].
    destruct y as [|b y]; simpl in E.
    + injection E as -> _. congruence.
    + injection E as -> E. simpl in Hy. apply andb_true_iff in Hy.
      destruct (IH y Hx (proj2 Hy) H1 H2 E) as [-> [-> ->]]. now repeat split.
Qed.

Lemma format_duration_unfold (n : Z) :
  format_duration n
  = if n <? 60 then str_of_int n ++ " min"
    else if n mod 60 =? 0 then str_of_int (n / 60) ++ "h"
    else str_of_int (n / 60) ++ "h " ++ str_of_int (n mod 60) ++ "min".
Proof.
  unfold format_duration, Z.modulo, Z.div.
  destruct (Z.div_eucl n 60) as [h m].
  destruct (n <? 60); [reflexivity|]. destruct (m =? 0); reflexivity.
Qed.

Lemma format_duration_inj (a b : Z) :
  format_duration a = format_duration b -> a = b.
Proof.
  rewrite !format_duration_unfold.
  pose proof (numeric_str_of_int a) as Na.
  pose proof (numeric_str_of_int b) as Nb.
  pose proof (numeric_str_of_int (a / 60)) as Nha.
  pose proof (numeric_str_of_int (b / 60)) as Nhb.
  pose proof (numeric_str_of_int (a mod 60)) as Nma.
  pose proof (numeric_str_of_int (b mod 60)) as Nmb.
  pose proof (Z.div_mod a 60 ltac:(lia)) as Da.
  pose proof (Z.div_mod b 60 ltac:(lia)) as Db.
  assert (sp : numeric_char " " = false) by reflexivity.
  assert (hh : numeric_char "h" = false) by reflexivity.
  assert (mm : numeric_char "m" = false) by reflexivity.
  destruct (a <? 60), (b <? 60).
  - intros E.
    apply (numeric_prefix_unique _ _ " " " " "min" "min") in E; try assumption.
    now apply str_of_int_inj.
  - destruct (b mod 60 =? 0); intros E;
      [ apply (numeric_prefix_unique _ _ " " "h" "min" "") in E
      | apply (numeric_prefix_unique _ _ " " "h" "min"
                 (" " ++ str_of_int (b mod 60) ++ "min")) in E ];
      try assumption; destruct E as [_ [E _]]; discriminate.
  - destruct (a mod 60 =? 0); intros E;
      [ apply (numeric_prefix_unique _ _ "h" " " "" "min") in E
      | apply (numeric_prefix_unique _ _ "h" " "
                 (" " ++ str_of_int (a mod 60) ++ "min") "min") in E ];
      try assumption; destruct E as [_ [E _]]; discriminate.
  - destruct (Z.eqb_spec (a mod 60) 0) as [Ma|Ma],
             (Z.eqb_spec (b mod 60) 0) as [Mb|Mb]; intros E.
    + apply (numeric_prefix_unique _ _ "h" "h" "" "") in E; try assumption.
      destruct E as [E _]. apply str_of_int_inj in E. lia.
    + apply (numeric_prefix_unique _ _ "h" "h" ""
               (" " ++ str_of_int (b mod 60) ++ "min")) in E; try assumption.
      destruct E as [_ [_ E]]. discriminate.
    + apply (numeric_prefix_unique _ _ "h" "h"
               (" " ++ str_of_int (a mod 60) ++ "min") "") in E; try assumption.
      destruct E as [_ [_ E]]. discriminate.
    + apply (numeric_prefix_unique _ _ "h" "h"
               (" " ++ str_of_int (a mod 60) ++ "min")
               (" " ++ str_of_int (b mod 60) ++ "min")) in E; try assumption.
      destruct E as [E [_ E']]. apply str_of_int_inj in E.
      simpl in E'. injection E' as E'.
      apply (numeric_prefix_unique _ _ "m" "m" "in" "in") in E'; try assumption.
      destruct E' as [E' _]. apply str_of_int_inj in E'. lia.
Qed.

(** X1: two different numbers of minutes (negative ones included) never
    get the same text: the duration shown does not hide a difference. *)
Theorem format_duration_distinct (a b : Z) :
  a <> b -> format_duration a <> format_duration b.
Proof. intros H E. apply H. now apply format_duration_inj. Qed.

Lemma format_duration_distinct_witness :
  format_duration 60 <> format_duration 61.
Proof. apply (format_duration_distinct 60 61). lia. Defined.

(** ** The query of [geocode] *)

(** X2: building the query from a query changes nothing: the suffix
    holds "London", so it is added at most once however often the result
    is fed back. *)
Theorem geocode_query_idempotent (address : string) :
  geocode_query (geocode_query address) = geocode_query address
  /\ str_in "london" (lower (geocode_query address)) = true.
Proof.
  assert (H : str_in "london" (lower (geocode_query address)) = true).
  { unfold geocode_query.
    destruct (str_in "london" (lower address)) eqn:E; [exact E|].
    apply str_in_iff. exists (lower address ++ ", "), ", uk".
    rewrite lower_app, str_app_assoc. reflexivity. }
  split; [|exact H].
  unfold geocode_query at 1. now rewrite H.
Qed.

(** ** The two tables *)

(** X3: the two tables have the same modes: a mode name has a colour of
    its own exactly when it has a label of its own, so a badge is never
    half styled. *)
Theorem tables_same_modes (name : string) :
  assoc name MODE_COLOURS = None <-> assoc name MODE_LABELS = None.
Proof.
  unfold MODE_COLOURS, MODE_LABELS, assoc.
  repeat match goal with
         | |- context [String.eqb name ?k] => destruct (String.eqb name k)
         end;
    split; intros H; try discriminate; reflexivity.
Qed.

(** ** The two helpers *)

Section Helpers.

Variable rt : Builtins.
Variable w : world.

(** X4: when the service answers with a list whose first candidate has
    "lat" and "lon" strings that read as floats and a "display_name",
    [geocode] returns exactly those three; the candidates after the first
    play no part. *)
Theorem geocode_first_candidate (address : string) (s : state rt) (r : response)
    (c : list (string * json)) (others : list json)
    (la lo : string) (x y : float rt) (name : json) :
  w (calls s) (geocode_request address) = Got r ->
  raise_for_status r = inr tt ->
  body r = inr (JArr (JObj c :: others)) ->
  assoc "lat" c = Some (JStr la) -> float_of_str rt la = Some x ->
  assoc "lon" c = Some (JStr lo) -> float_of_str rt lo = Some y ->
  assoc "display_name" c = Some name ->
  geocode rt w address s
  = ({| calls := S (calls s);
        out := (out s ++ [HttpGet (geocode_request address)])%list |},
     inr (x, y, name)).
Proof.
  intros Hw Hst Hb Hla Hx Hlo Hy Hn.
  unfold geocode, bind, requests_get, lift, ret, resp_json, py_getitem0,
    py_getitem, py_float.
  rewrite Hw, Hst, Hb. simpl. rewrite Hla, Hx, Hlo, Hy, Hn. reflexivity.
Qed.

(** X5: a first candidate that lacks "lat", "lon" or "display_name" makes
    [geocode] raise a KeyError that names the first of them that is
    missing (the name is required although the run never uses it), and
    the handler reports it as "Something went wrong". *)
Theorem geocode_missing_key (address : string) (s : state rt) (r : response)
    (c : list (string * json)) (others : list json) :
  w (calls s) (geocode_request address) = Got r ->
  raise_for_status r = inr tt ->
  body r = inr (JArr (JObj c :: others)) ->
  (assoc "lat" c = None ->
   snd (geocode rt w address s) = inl (Raise KeyError "'lat'"))
  /\ (forall v x, assoc "lat" c = Some v -> py_float rt v = inr x ->
       assoc "lon" c = None ->
       snd (geocode rt w address s) = inl (Raise KeyError "'lon'"))
  /\ (forall v x v' y, assoc "lat" c = Some v -> py_float rt v = inr x ->
       assoc "lon" c = Some v' -> py_float rt v' = inr y ->
       assoc "display_name" c = None ->
       snd (geocode rt w address s) = inl (Raise KeyError "'display_name'"))
  /\ (forall k, handler_msg (Raise KeyError k) = "Something went wrong: " ++ k).
Proof.
  intros Hw Hst Hb.
  unfold geocode, bind, requests_get, lift, ret, resp_json, py_getitem0, py_getitem.
  rewrite Hw, Hst, Hb. simpl. repeat split.
  - intros ->. reflexivity.
  - intros v x -> -> ->. reflexivity.
  - intros v x v' y -> -> -> -> ->. reflexivity.
Qed.

(** X6: [get_tfl_journey] makes one call, for tube and walking only and
    without national search, to a path built from the four coordinates;
    it returns a document exactly when the service answers with a status
    outside 400-599 and a JSON body, and then returns that document
    untouched. *)
Theorem get_tfl_journey_result (a b c d : float rt) (s : state rt) :
  (exists req,
      fst (get_tfl_journey rt w a b c d s)
      = {| calls := S (calls s); out := (out s ++ [HttpGet req])%list |}
      /\ url req = "https://api.tfl.gov.uk/Journey/JourneyResults/"
                   ++ float_str rt a ++ "," ++ float_str rt b
                   ++ "/to/" ++ float_str rt c ++ "," ++ float_str rt d
      /\ params req = [("mode", "tube,walking"); ("nationalSearch", "false")])
  /\ (forall data,
        snd (get_tfl_journey rt w a b c d s) = inr data
        <-> exists r,
            w (calls s) (tfl_request rt a b c d) = Got r
            /\ ~ (400 <= status_code r < 600)
            /\ body r = inr data).
Proof.
  split.
  - exists (tfl_request rt a b c d). rewrite get_tfl_journey_state.
    repeat split.
  - intros data.
    unfold get_tfl_journey, bind, requests_get, lift, resp_json, raise_for_status.
    destruct (w (calls s) (tfl_request rt a b c d)) as [msg|r].
    { split; [discriminate | intros [r [H _]]; discriminate]. }
    destruct (Z.leb_spec 400 (status_code r)) as [L|L],
             (Z.ltb_spec (status_code r) 600) as [U|U]; simpl.
    1: { split; [discriminate|]. intros [r' [H [N _]]]. injection H as <-. lia. }
    all: destruct (body r) as [msg|v] eqn:Hb; simpl;
      (split;
       [ intros H; try discriminate; injection H as <-; exists r;
         repeat split; try assumption; lia
       | intros [r' [H [_ Hb']]]; injection H as <-; congruence ]).
Qed.

End Helpers.

(** ** Whole runs *)

Section Runs.

Variable rt : Builtins.
Variable w : world.

Lemma located_raises (n : nat) (address : string) (e : exn) :
  response_raises (w n (geocode_request address)) = Some e ->
  located rt w n address = inl e.
Proof.
  unfold response_raises, located, geocode, bind, requests_get, lift. simpl.
  destruct (w n (geocode_request address)) as [msg|r].
  { intros H. injection H as <-. reflexivity. }
  destruct (raise_for_status r) as [e1|[]].
  { intros H. injection H as <-. reflexivity. }
  destruct (resp_json r) as [e2|v]; [|discriminate].
  intros H. injection H as <-. reflexivity.
Qed.

Lemma tfl_raises (a b c d : float rt) (s : state rt) (e : exn) :
  response_raises (w (calls s) (tfl_request rt a b c d)) = Some e ->
  snd (get_tfl_journey rt w a b c d s) = inl e.
Proof.
  unfold response_raises, get_tfl_journey, bind, requests_get, lift.
  destruct (w (calls s) (tfl_request rt a b c d)) as [msg|r].
  { intros H. injection H as <-. reflexivity. }
  destruct (raise_for_status r) as [e1|[]].
  { intros H. injection H as <-. reflexivity. }
  destruct (resp_json r) as [e2|v]; [|discriminate].
  intros H. injection H as <-. reflexivity.
Qed.

(** The requests of a run with both fields filled in. *)
Lemma requests_of_run (from_input to_input : string) :
  from_input <> "" -> to_input <> "" ->
  requests_of (trace rt w from_input to_input)
  = match located rt w 0 from_input with
    | inl _ => [geocode_request from_input]
    | inr (from_lat, from_lng, _) =>
        match located rt w 1 to_input with
        | inl _ => [geocode_request from_input; geocode_request to_input]
        | inr (to_lat, to_lng, _) =>
            [geocode_request from_input; geocode_request to_input;
             tfl_request rt from_lat from_lng to_lat to_lng]
        end
    end.
Proof.
  intros Hf Ht. unfold trace. rewrite calculate_nonempty, run_steps by assumption.
  destruct (located rt w 0 from_input) as [e|[[from_lat from_lng] n1]];
    [reflexivity|].
  destruct (located rt w 1 to_input) as [e|[[to_lat to_lng] n2]];
    [reflexivity|].
  cbv zeta.
  destruct (snd (get_tfl_journey rt w from_lat from_lng to_lat to_lng _))
    as [e|data]; [reflexivity|].
  match goal with
  | |- context [catch rt ?m ?s3] =>
      destruct (quiet_catch rt m (quiet_present_result rt _ _ _ _ _ _ _) s3)
        as [evs [Q R]]
  end.
  rewrite Q. simpl. now rewrite R.
Qed.

(** X7: a run calls the services in a fixed order and stops calling at the
    first failure: the first address is always looked up, the second only
    when the first was found, the journey only when both were; so there
    are at most three calls, and the call counter is their number. *)
Theorem requests_in_order (from_input to_input : string) :
  from_input <> "" -> to_input <> "" ->
  requests_of (trace rt w from_input to_input)
  = match located rt w 0 from_input with
    | inl _ => [geocode_request from_input]
    | inr (from_lat, from_lng, _) =>
        match located rt w 1 to_input with
        | inl _ => [geocode_request from_input; geocode_request to_input]
        | inr (to_lat, to_lng, _) =>
            [geocode_request from_input; geocode_request to_input;
             tfl_request rt from_lat from_lng to_lat to_lng]
        end
    end
  /\ (List.length (requests_of (trace rt w from_input to_input)) <= 3)%nat
  /\ calls (fst (calculate rt w from_input to_input (init rt)))
     = List.length (requests_of (trace rt w from_input to_input)).
Proof.
  intros Hf Ht. split; [now apply requests_of_run|].
  rewrite (requests_of_run _ _ Hf Ht).
  rewrite calculate_nonempty, run_steps by assumption.
  destruct (located rt w 0 from_input) as [e|[[from_lat from_lng] n1]].
  { split; [simpl; lia | reflexivity]. }
  destruct (located rt w 1 to_input) as [e|[[to_lat to_lng] n2]].
  { split; [simpl; lia | reflexivity]. }
  split; [simpl; lia|]. cbv zeta.
  destruct (snd (get_tfl_journey rt w from_lat from_lng to_lat to_lng _))
    as [e|data]; [reflexivity|].
  match goal with
  | |- context [catch rt ?m ?s3] =>
      destruct (quiet_catch rt m (quiet_present_result rt _ _ _ _ _ _ _) s3)
        as [evs [Q R]]
  end.
  rewrite Q. reflexivity.
Qed.

(** X8: when the call number [n] of a run fails before its document is
    read (no connection, a status from 400 to 599, a body that is not
    JSON), the run stops right after that request and shows one message:
    "Something went wrong: " and the reason for a connection failure, the
    decoding message alone for a body that is not JSON. *)
Theorem call_failure_reported (from_input to_input : string) (n : nat)
    (req : request) (e : exn) :
  from_input <> "" -> to_input <> "" ->
  nth_error (requests_of (trace rt w from_input to_input)) n = Some req ->
  response_raises (w n req) = Some e ->
  (exists before,
      calculate rt w from_input to_input (init rt)
      = ({| calls := S n;
            out := (before ++ [HttpGet req; Error (handler_msg e)])%list |}, inr tt)
      /\ List.length (requests_of before) = n)
  /\ (forall msg, w n req = ConnFail msg ->
        handler_msg e = "Something went wrong: " ++ msg)
  /\ (forall r msg, w n req = Got r -> raise_for_status r = inr tt ->
        body r = inl msg -> handler_msg e = msg).
Proof.
  intros Hf Ht Hn Hr. split.
  - rewrite (requests_of_run _ _ Hf Ht) in Hn.
    rewrite calculate_nonempty, run_steps by assumption.
    destruct (located rt w 0 from_input) as [e0|[[from_lat from_lng] n1]] eqn:L0.
    { destruct n as [|[|n]]; try discriminate. injection Hn as <-.
      rewrite (located_raises 0 _ e Hr) in L0. injection L0 as <-.
      exists [Spinner spinner_text]. split; reflexivity. }
    destruct (located rt w 1 to_input) as [e1|[[to_lat to_lng] n2]] eqn:L1.
    { destruct n as [|[|[|n]]]; try discriminate; injection Hn as <-.
      - rewrite (located_raises 0 _ e Hr) in L0. discriminate.
      - rewrite (located_raises 1 _ e Hr) in L1. injection L1 as <-.
        exists [Spinner spinner_text; HttpGet (geocode_request from_input)].
        split; reflexivity. }
    destruct n as [|[|[|n]]]; try (destruct n; discriminate);
      injection Hn as <-.
    + rewrite (located_raises 0 _ e Hr) in L0. discriminate.
    + rewrite (located_raises 1 _ e Hr) in L1. discriminate.
    + cbv zeta.
      match goal with
      | |- context [get_tfl_journey rt w _ _ _ _ ?s2] =>
          rewrite (tfl_raises _ _ _ _ s2 e Hr)
      end.
      exists [Spinner spinner_text; HttpGet (geocode_request from_input);
              HttpGet (geocode_request to_input)].
      split; reflexivity.
  - unfold response_raises in Hr. split.
    + intros msg Hw. rewrite Hw in Hr. injection Hr as <-. reflexivity.
    + intros r msg Hw Hst Hb. rewrite Hw, Hst in Hr. unfold resp_json in Hr.
      rewrite Hb in Hr. injection Hr as <-. reflexivity.
Qed.

(** *** One final event *)

Lemma plain_lift (A : Type) (r : res A) : plain (lift rt r).
Proof. intros s. exists []. split; [apply state_eta | reflexivity]. Qed.

Lemma plain_emit (e : event rt) : is_terminal e = false -> plain (emit rt e).
Proof.
  intros H s. exists [e]. split; [reflexivity|].
  simpl. unfold not_terminal. now rewrite H.
Qed.

Lemma plain_ret (A : Type) (a : A) : plain (ret rt a).
Proof. intros s. exists []. split; [apply state_eta | reflexivity]. Qed.

Lemma plain_bind (A B : Type) (m : M rt A) (k : A -> M rt B) :
  plain m -> (forall a, plain (k a)) -> plain (bind rt m k).
Proof.
  intros Hm Hk s. unfold bind.
  destruct (Hm s) as [evs [E1 P1]].
  destruct (m s) as [s1 [e|a]]; simpl in E1; subst s1.
  - now exists evs.
  - destruct (Hk a {| calls := calls s; out := (out s ++ evs)%list |})
      as [evs' [E2 P2]].
    exists (evs ++ evs')%list. simpl in E2. rewrite E2, app_assoc.
    split; [reflexivity|]. now rewrite forallb_app, P1, P2.
Qed.

Lemma plain_render_legs (legs : list json) : plain (render_legs rt legs).
Proof.
  induction legs as [|leg legs IH]; simpl.
  - apply plain_ret.
  - apply plain_bind; [apply plain_lift | intros html].
    apply plain_bind; [now apply plain_emit | intros _; exact IH].
Qed.

Lemma ends_once_emit (e : event rt) :
  is_terminal e = true -> ends_once (emit rt e).
Proof.
  intros H s. exists []. split; [reflexivity|]. left. now exists e.
Qed.

Lemma ends_once_bind (A : Type) (m : M rt A) (k : A -> M rt unit) :
  plain m -> (forall a, ends_once (k a)) -> ends_once (bind rt m k).
Proof.
  intros Hm Hk s. unfold bind.
  destruct (Hm s) as [evs [E1 P1]].
  destruct (m s) as [s1 [e|a]]; simpl in E1; subst s1.
  - exists evs. split; [exact P1|]. right. now exists e.
  - destruct (Hk a {| calls := calls s; out := (out s ++ evs)%list |})
      as [evs' [P2 [[last [T E2]] | [e E2]]]]; simpl in E2;
      exists (evs ++ evs')%list; rewrite forallb_app, P1, P2;
      (split; [reflexivity|]).
    + left. exists last. split; [exact T|]. rewrite E2.
      now rewrite <- !app_assoc.
    + right. exists e. rewrite E2. now rewrite <- !app_assoc.
Qed.

Lemma ends_once_draw_map (m : folium_map (float rt)) :
  ends_once (draw_map rt m).
Proof.
  unfold draw_map. destruct (folium_raises rt m) as [e|].
  - intros s. exists []. split; [reflexivity|]. right. exists e.
    unfold raise. now rewrite app_nil_r; destruct s.
  - now apply ends_once_emit.
Qed.

Lemma ends_once_render_journey (f t : string) (a b c d : float rt) (j : json) :
  ends_once (render_journey rt f t a b c d j).
Proof.
  unfold render_journey.
  repeat (apply ends_once_bind;
          [ first [ apply plain_lift | apply plain_render_legs
                  | apply plain_emit; reflexivity ]
          | intros ? ]).
  apply ends_once_draw_map.
Qed.

Lemma ends_once_present_result (f t : string) (a b c d : float rt) (data : json) :
  ends_once (present_result rt f t a b c d data).
Proof.
  unfold present_result.
  apply ends_once_bind; [apply plain_lift | intros js].
  destruct (negb (truthy js)); [now apply ends_once_emit|].
  apply ends_once_bind; [apply plain_lift | intros ?].
  apply ends_once_bind; [apply plain_lift | intros ?].
  apply ends_once_render_journey.
Qed.

(** X9: every run ends with exactly one final event, the warning, one
    error message or the map, and shows none of these before: the map is
    never drawn together with an error message, and two messages are never
    shown. *)
Theorem one_final_event (from_input to_input : string) :
  exists before last,
    trace rt w from_input to_input = (before ++ [last])%list
    /\ is_terminal last = true
    /\ forallb not_terminal before = true.
Proof.
  unfold trace.
  destruct (string_dec from_input "") as [->|Hf].
  { exists [], (Warning "Please enter both locations."). now repeat split. }
  destruct (string_dec to_input "") as [->|Ht].
  { exists [], (Warning "Please enter both locations.").
    unfold calculate. rewrite orb_true_r. now repeat split. }
  rewrite calculate_nonempty, run_steps by assumption.
  destruct (located rt w 0 from_input) as [e|[[from_lat from_lng] n1]].
  { eexists [_; _], _. now repeat split. }
  destruct (located rt w 1 to_input) as [e|[[to_lat to_lng] n2]].
  { eexists [_; _; _], _. now repeat split. }
  cbv zeta.
  destruct (snd (get_tfl_journey rt w from_lat from_lng to_lat to_lng _))
    as [e|data].
  { eexists [_; _; _; _], _. now repeat split. }
  match goal with
  | |- context [catch rt ?m ?s3] =>
      destruct (ends_once_present_result from_input to_input
                  from_lat from_lng to_lat to_lng data s3)
        as [evs [P [[last [T E]] | [e E]]]]
  end; unfold catch; rewrite E; simpl.
  - eexists (_ :: _ :: _ :: _ :: evs), last. now repeat split.
  - eexists (_ :: _ :: _ :: _ :: evs), _. now repeat split.
Qed.

(** *** The results panel *)

Lemma render_legs_fail (good : list json) (htmls : list string) (bad : json)
    (rest : list json) (e : exn) (s : state rt) :
  Forall2 (fun leg html => render_leg rt leg = inr html) good htmls ->
  render_leg rt bad = inl e ->
  render_legs rt (good ++ bad :: rest) s
  = ({| calls := calls s;
        out := (out s ++ map (fun html => Markdown html true) htmls)%list |},
     inl e).
Proof.
  intros H Hbad. revert s.
  induction H as [|leg html legs htmls Hleg _ IH]; intros s.
  - simpl. unfold bind, lift. rewrite Hbad. now rewrite app_nil_r; destruct s.
  - simpl. unfold bind, lift. rewrite Hleg. simpl.
    rewrite IH. simpl. now rewrite <- app_assoc.
Qed.

(** X10: when a leg cannot be drawn, the steps before it stay on the
    screen and the error message follows them: no later step, no caption
    and no map are drawn. *)
Theorem failing_leg_stops_steps (f t : string) (a b c d : float rt)
    (jf : list (string * json)) (dur : Z) (good : list json)
    (htmls : list string) (bad : json) (rest : list json) (e : exn)
    (s : state rt) :
  assoc "duration" jf = Some (JInt dur) ->
  assoc "legs" jf = Some (JArr (good ++ bad :: rest)) ->
  Forall2 (fun leg html => render_leg rt leg = inr html) good htmls ->
  render_leg rt bad = inl e ->
  catch rt (render_journey rt f t a b c d (JObj jf)) s
  = ({| calls := calls s;
        out := (out s
                ++ [Metric "Fastest Journey Time" (format_duration dur);
                    Markdown ("**From:** " ++ f ++ "  " ++ nl ++ "**To:** " ++ t)
                      false;
                    Markdown "**Steps**" false]
                ++ map (fun html => Markdown html true) htmls
                ++ [Error (handler_msg e)])%list |}, inr tt).
Proof.
  intros Hd Hl Hgood Hbad.
  unfold catch, render_journey, bind, lift, py_getitem.
  rewrite Hd, Hl. simpl.
  rewrite (render_legs_fail good htmls bad rest e _ Hgood Hbad).
  unfold emit. simpl. now rewrite <- !app_assoc.
Qed.

(** X11: a journey without "duration" draws nothing and reports the
    missing key; a journey with a duration but without "legs" shows the
    duration and the two headings, then reports the missing key. *)
Theorem journey_missing_key (f t : string) (a b c d : float rt)
    (jf : list (string * json)) (s : state rt) :
  (assoc "duration" jf = None ->
   catch rt (render_journey rt f t a b c d (JObj jf)) s
   = ({| calls := calls s;
         out := (out s ++ [Error "Something went wrong: 'duration'"])%list |},
      inr tt))
  /\ (forall dur,
        assoc "duration" jf = Some (JInt dur) ->
        assoc "legs" jf = None ->
        catch rt (render_journey rt f t a b c d (JObj jf)) s
        = ({| calls := calls s;
              out := (out s
                      ++ [Metric "Fastest Journey Time" (format_duration dur);
                          Markdown ("**From:** " ++ f ++ "  " ++ nl
                                    ++ "**To:** " ++ t) false;
                          Markdown "**Steps**" false;
                          Error "Something went wrong: 'legs'"])%list |},
           inr tt)).
Proof.
  split.
  - intros Hd. unfold catch, render_journey, bind, lift, py_getitem.
    rewrite Hd. reflexivity.
  - intros dur Hd Hl. unfold catch, render_journey, bind, lift, py_getitem.
    rewrite Hd, Hl. unfold emit. simpl. now rewrite <- !app_assoc.
Qed.

(** X16: a duration that is not a number (an integer or a float) and not
    a boolean, that is null, a string, a list or an object, cannot be
    compared with 60: nothing of the journey is drawn, not even the
    headings, and the TypeError is reported. *)
Theorem duration_not_a_number (f t : string) (a b c d : float rt)
    (jf : list (string * json)) (v : json) (s : state rt) :
  assoc "duration" jf = Some v ->
  (forall z, v <> JInt z) -> (forall x, v <> JFloat x) ->
  (forall bv, v <> JBool bv) ->
  (v = JNull \/ (exists str, v = JStr str) \/ (exists l, v = JArr l)
   \/ (exists o, v = JObj o))
  /\ catch rt (render_journey rt f t a b c d (JObj jf)) s
     = ({| calls := calls s;
           out := (out s
                   ++ [Error ("Something went wrong: "
                              ++ "'<' not supported between instances of '"
                              ++ type_name v ++ "' and 'int'")])%list |},
        inr tt).
Proof.
  intros Hd Hz Hx Hb. unfold catch, render_journey, bind, lift, py_getitem.
  rewrite Hd.
  destruct v as [|bv|z|x|str|l|o].
  - split; [now left | reflexivity].
  - now destruct (Hb bv).
  - now destruct (Hz z).
  - now destruct (Hx x).
  - split; [right; left; now exists str | reflexivity].
  - split; [right; right; left; now exists l | reflexivity].
  - split; [right; right; right; now exists o | reflexivity].
Qed.

(** *** Legs that are not as the service describes them *)

(** X12: a leg that is not an object, or whose "mode" or "instruction" is
    present and not an object, is not drawn: the body of the loop raises
    the AttributeError of the value that has no [get]. *)
Theorem leg_entry_not_object :
  (forall v, (forall o, v <> JObj o) ->
             render_leg rt v = inl (no_attribute v "get"))
  /\ (forall fields v,
        assoc "mode" fields = Some v -> (forall o, v <> JObj o) ->
        render_leg rt (JObj fields) = inl (no_attribute v "get"))
  /\ (forall fields v,
        absent_or_object fields "mode" ->
        assoc "instruction" fields = Some v -> (forall o, v <> JObj o) ->
        render_leg rt (JObj fields) = inl (no_attribute v "get")).
Proof.
  repeat split.
  - intros v Hv. destruct v; try reflexivity. now destruct (Hv fields).
  - intros fields v Hm Hv. unfold render_leg, leg_mode, py_get. rewrite Hm.
    destruct v; try reflexivity. now destruct (Hv fields0).
  - intros fields v Hm Hi Hv.
    unfold render_leg, leg_mode, leg_summary, py_get.
    rewrite Hi.
    destruct Hm as [-> | [o ->]]; simpl;
      destruct v; try reflexivity; now destruct (Hv fields0).
Qed.

(** X13: a mode name that is not a string: a list or an object cannot be
    looked up in the tables and the leg is not drawn (TypeError), whatever
    its instruction; a number, a boolean or null gets the default colour
    and is printed as the label. *)
Theorem mode_name_not_string (fields mf : list (string * json)) (v : json) :
  assoc "mode" fields = Some (JObj mf) ->
  assoc "name" mf = Some v ->
  absent_or_object fields "instruction" ->
  match v with
  | JStr _ => True
  | JArr _ | JObj _ =>
      render_leg rt (JObj fields)
      = inl (Raise TypeError ("unhashable type: '" ++ type_name v ++ "'"))
  | _ =>
      exists text,
        render_leg rt (JObj fields)
        = inr (leg_html "#374151" (py_str (repr rt) v) text)
  end.
Proof.
  intros Hm Hn Hi.
  assert (E : leg_mode (JObj fields) = inr v).
  { unfold leg_mode, py_get. now rewrite Hm, Hn. }
  unfold render_leg. rewrite E, (leg_summary_text fields v Hi).
  destruct v as [|bv|z|fl|str|l|o]; try exact I;
    destruct (text_of (leg_field fields "instruction" "summary")) as [x|];
    try (eexists; reflexivity); try reflexivity;
    destruct (text_of (leg_field fields "instruction" "detailed")) as [y|];
    try (eexists; reflexivity); reflexivity.
Qed.

End Runs.

(** ** Documents the geocoder is not expected to send *)

Section Documents.

Variable rt : Builtins.
Variable w : world.

(** X14: [geocode] reports "could not find location" for every empty
    document, not only the empty list (null, false, 0, the empty string,
    the empty object); a non-empty object, which has no entry 0, makes it
    raise KeyError instead, shown as "Something went wrong: 0". *)
Theorem geocode_other_documents (address : string) (s : state rt) (r : response)
    (data : json) :
  w (calls s) (geocode_request address) = Got r ->
  raise_for_status r = inr tt ->
  body r = inr data ->
  (truthy data = false ->
   snd (geocode rt w address s)
   = inl (Raise ValueError (not_found_msg address)))
  /\ (forall kv kvs, data = JObj (kv :: kvs) ->
        snd (geocode rt w address s) = inl (Raise KeyError "0")
        /\ handler_msg (Raise KeyError "0") = "Something went wrong: 0").
Proof.
  intros Hw Hst Hb.
  unfold geocode, bind, requests_get, lift, raise, resp_json.
  rewrite Hw, Hst, Hb. simpl. split.
  - intros ->. reflexivity.
  - intros kv kvs ->. split; reflexivity.
Qed.

(** X15: a first candidate whose "lat" is a string that does not read as a
    float makes [geocode] raise the ValueError of the conversion, and the
    handler shows that message as it is, through the clause that also
    shows "could not find location". *)
Theorem geocode_bad_latitude (address : string) (s : state rt) (r : response)
    (c : list (string * json)) (others : list json) (la : string) :
  w (calls s) (geocode_request address) = Got r ->
  raise_for_status r = inr tt ->
  body r = inr (JArr (JObj c :: others)) ->
  assoc "lat" c = Some (JStr la) ->
  float_of_str rt la = None ->
  snd (geocode rt w address s)
  = inl (Raise ValueError
           ("could not convert string to float: " ++ repr rt (JStr la)))
  /\ handler_msg (Raise ValueError
                    ("could not convert string to float: " ++ repr rt (JStr la)))
     = "could not convert string to float: " ++ repr rt (JStr la).
Proof.
  intros Hw Hst Hb Hla Hx.
  unfold geocode, bind, requests_get, lift, resp_json, py_getitem0,
    py_getitem, py_float.
  rewrite Hw, Hst, Hb. simpl. rewrite Hla, Hx. split; reflexivity.
Qed.

End Documents.

(** ** The further properties at concrete inputs *)

Lemma geocode_first_candidate_witness :
  geocode text_rt world_45 "Baker Street" (init text_rt)
  = ({| calls := 1; out := [HttpGet (geocode_request "Baker Street")] |},
     inr ("51.5226", "-0.1571", JStr "Baker Street, London")).
Proof.
  apply (geocode_first_candidate text_rt world_45 "Baker Street" (init text_rt)
           (ok_response (place "51.5226" "-0.1571" "Baker Street, London"))
           [("lat", JStr "51.5226"); ("lon", JStr "-0.1571");
            ("display_name", JStr "Baker Street, London")] []
           "51.5226" "-0.1571"); reflexivity.
Defined.

Lemma geocode_missing_key_witness :
  snd (geocode text_rt world_no_lon "Baker Street" (init text_rt))
  = inl (Raise KeyError "'lon'").
Proof.
  destruct (geocode_missing_key text_rt world_no_lon "Baker Street" (init text_rt)
              (ok_response (JArr [JObj [("lat", JStr "51.5")]]))
              [("lat", JStr "51.5")] [] eq_refl eq_refl eq_refl)
    as [_ [H _]].
  apply (H (JStr "51.5") "51.5"); reflexivity.
Defined.

Lemma requests_in_order_witness :
  requests_of (trace text_rt world_nowhere "Baker Street" "Canary Wharf")
  = [geocode_request "Baker Street"].
Proof.
  apply (proj1 (requests_in_order text_rt world_nowhere
                  "Baker Street" "Canary Wharf"
                  ltac:(discriminate) ltac:(discriminate))).
Defined.

Lemma call_failure_reported_witness :
  exists before,
    calculate text_rt world_offline "Baker Street" "Canary Wharf" (init text_rt)
    = ({| calls := 1;
          out := (before
                  ++ [HttpGet (geocode_request "Baker Street");
                      Error "Something went wrong: Connection refused"])%list |},
       inr tt)
    /\ List.length (requests_of before) = 0%nat.
Proof.
  apply (proj1 (call_failure_reported text_rt world_offline
                  "Baker Street" "Canary Wharf" 0
                  (geocode_request "Baker Street")
                  (Raise RequestException "Connection refused")
                  ltac:(discriminate) ltac:(discriminate) eq_refl eq_refl)).
Defined.

Lemma failing_leg_stops_steps_witness :
  catch text_rt (render_journey text_rt "A" "B" "1" "2" "3" "4" journey_bad_leg)
    (init text_rt)
  = ({| calls := 0;
        out := [Metric "Fastest Journey Time" "45 min";
                Markdown ("**From:** A  " ++ nl ++ "**To:** B") false;
                Markdown "**Steps**" false;
                Markdown (leg_html "#6b7280" "Walk" "Walk to Baker Street Station")
                  true;
                Error "Something went wrong: 'str' object has no attribute 'get'"] |},
     inr tt).
Proof.
  apply (failing_leg_stops_steps text_rt "A" "B" "1" "2" "3" "4"
           [("duration", JInt 45);
            ("legs", JArr [walk_leg; JObj [("mode", JStr "tube")]; tube_leg])]
           45 [walk_leg]
           [leg_html "#6b7280" "Walk" "Walk to Baker Street Station"]
           (JObj [("mode", JStr "tube")]) [tube_leg]
           (no_attribute (JStr "tube") "get") (init text_rt));
    try reflexivity.
  repeat constructor.
Defined.

Lemma journey_missing_key_witness :
  catch text_rt (render_journey text_rt "A" "B" "1" "2" "3" "4" journey_no_legs)
    (init text_rt)
  = ({| calls := 0;
        out := [Metric "Fastest Journey Time" "45 min";
                Markdown ("**From:** A  " ++ nl ++ "**To:** B") false;
                Markdown "**Steps**" false;
                Error "Something went wrong: 'legs'"] |},
     inr tt).
Proof.
  apply (proj2 (journey_missing_key text_rt "A" "B" "1" "2" "3" "4"
                  [("duration", JInt 45)] (init text_rt)) 45);
    reflexivity.
Defined.

Lemma leg_entry_not_object_witness :
  render_leg text_rt (JObj [("mode", JStr "tube")])
  = inl (no_attribute (JStr "tube") "get").
Proof.
  apply (proj1 (proj2 (leg_entry_not_object text_rt))
           [("mode", JStr "tube")] (JStr "tube")); [reflexivity|].
  intros o. discriminate.
Defined.

Lemma mode_name_not_string_witness :
  exists text,
    render_leg text_rt leg_numeric_mode = inr (leg_html "#374151" "7" text).
Proof.
  apply (mode_name_not_string text_rt
           [("mode", JObj [("name", JInt 7)])] [("name", JInt 7)] (JInt 7));
    try reflexivity.
  left. reflexivity.
Defined.

Lemma geocode_other_documents_witness :
  snd (geocode text_rt world_object "Baker Street" (init text_rt))
  = inl (Raise KeyError "0").
Proof.
  destruct (geocode_other_documents text_rt world_object "Baker Street"
              (init text_rt)
              (ok_response (JObj [("error", JStr "Unable to geocode")]))
              (JObj [("error", JStr "Unable to geocode")])
              eq_refl eq_refl eq_refl) as [_ H].
  apply (H ("error", JStr "Unable to geocode") []). reflexivity.
Defined.

Lemma geocode_bad_latitude_witness :
  snd (geocode checked_rt world_bad_lat "Baker Street" (init checked_rt))
  = inl (Raise ValueError "could not convert string to float: 'north'").
Proof.
  apply (proj1 (geocode_bad_latitude checked_rt world_bad_lat "Baker Street"
                  (init checked_rt)
                  (ok_response (JArr [JObj [("lat", JStr "north")]]))
                  [("lat", JStr "north")] [] "north"
                  eq_refl eq_refl eq_refl eq_refl eq_refl)).
Defined.

Lemma duration_not_a_number_witness :
  catch text_rt
    (render_journey text_rt "A" "B" "1" "2" "3" "4"
       (JObj [("duration", JStr "45")]))
    (init text_rt)
  = ({| calls := 0;
        out := [Error ("Something went wrong: "
                       ++ "'<' not supported between instances of 'str' and 'int'")] |},
     inr tt).
Proof.
  apply (proj2 (duration_not_a_number text_rt "A" "B" "1" "2" "3" "4"
                  [("duration", JStr "45")] (JStr "45") (init text_rt)
                  eq_refl
                  ltac:(intros z; discriminate)
                  ltac:(intros x; discriminate)
                  ltac:(intros bv; discriminate))).
Defined.
